(** * Session merging and versioned submission: a shallow embedding

    The development follows [merge_sessions.py] (the Merge Orchestrator and the
    Metric Aggregator) and [submit.py] (the Upload Scheduler, the Artifact
    Transfer and the Version Ledger).  Python dictionaries are finite maps
    ([gmap string json]), exceptions that the scripts do not catch are the
    [None] of an option, [sys.exit] is an explicit [Fatal] outcome, and the
    services outside the scripts (the storage endpoint, the clock, the UUID
    generator, [datetime.fromisoformat]) are section variables. *)

From stdpp Require Import gmap strings list fin_maps pretty sorting.
From Stdlib Require Import ZArith Lia Ascii.

(** ** Python strings *)

Module PyStr.

(** [sub in s] *)
Fixpoint contains (sub s : string) : bool :=
  match s with
  | EmptyString => String.prefix sub EmptyString
  | String _ s' => String.prefix sub s || contains sub s'
  end.

Definition startswith (p s : string) : bool := String.prefix p s.

(** [s.endswith(suf)] *)
Definition endswith (suf s : string) : bool :=
  String.prefix (String.rev suf) (String.rev s).

Definition lower_ascii (c : ascii) : ascii :=
  let n := Ascii.nat_of_ascii c in
  if (65 <=? n)%nat && (n <=? 90)%nat then Ascii.ascii_of_nat (n + 32) else c.

(** [s.lower()], on the ASCII letters. *)
Fixpoint lower (s : string) : string :=
  match s with
  | EmptyString => EmptyString
  | String c s' => String (lower_ascii c) (lower s')
  end.

(** [s.replace(pat, by)] for a non-empty [pat]: the occurrences are taken
    from the left and do not overlap; [skip] counts the characters of an
    occurrence that are still to be passed over. *)
Fixpoint replace_from (pat by_ : string) (skip : nat) (s : string) : string :=
  match s with
  | EmptyString => EmptyString
  | String c s' =>
      match skip with
      | S k => replace_from pat by_ k s'
      | O =>
          if String.prefix pat s
          then by_ +:+ replace_from pat by_ (String.length pat - 1) s'
          else String c (replace_from pat by_ 0 s')
      end
  end.

Definition replace (pat by_ s : string) : string := replace_from pat by_ 0 s.

(** [sep.join(l)] *)
Fixpoint join (sep : string) (l : list string) : string :=
  match l with
  | [] => EmptyString
  | [x] => x
  | x :: l' => x +:+ sep +:+ join sep l'
  end.

Definition newline : string := String (Ascii.ascii_of_nat 10) EmptyString.
Definition backslash : string := String (Ascii.ascii_of_nat 92) EmptyString.
Definition slash : string := "/".

(** [str(n)] for an integer. *)
Definition of_Z (n : Z) : string := pretty n.
Definition of_nat (n : nat) : string := pretty n.

End PyStr.

(** ** JSON values, as [json.loads] returns them

    Numbers are the integers: every counter of the logs and the submission
    version are integers.  Objects are dictionaries keyed by strings. *)

#[warnings="-register-all"]
Inductive json : Type :=
  | JNull
  | JBool (b : bool)
  | JNum (n : Z)
  | JStr (s : string)
  | JArr (l : list json)
  | JObj (m : gmap string json).

Module Py.

(** Truth value of a Python object ([if x:], [x or y], [not x]). *)
Definition truthy (v : json) : bool :=
  match v with
  | JNull => false
  | JBool b => b
  | JNum n => negb (n =? 0)%Z
  | JStr s => negb (String.eqb s "")
  | JArr l => match l with [] => false | _ => true end
  | JObj m => negb (bool_decide (m = ∅))
  end.

(** [d.get(k, dflt)] on a dictionary. *)
Definition get (d : gmap string json) (k : string) (dflt : json) : json :=
  default dflt (d !! k).

(** [v.get(k, dflt)] on any object: only a dictionary has the method,
    everything else raises [AttributeError]. *)
Definition get_attr (v : json) (k : string) (dflt : json) : option json :=
  match v with
  | JObj d => Some (get d k dflt)
  | _ => None
  end.

(** The integer a value stands for in arithmetic; [bool] is a subtype of
    [int].  Everything else raises [TypeError] against an [int]. *)
Definition as_int (v : json) : option Z :=
  match v with
  | JNum n => Some n
  | JBool b => Some (if b then 1 else 0)%Z
  | _ => None
  end.

(** [acc + v] with [acc] an integer. *)
Definition add (acc : Z) (v : json) : option Z :=
  n ← as_int v; Some (acc + n)%Z.

(** [max(acc, v)] with [acc] an integer (its numeric value). *)
Definition max (acc : Z) (v : json) : option Z :=
  n ← as_int v; Some (if (acc <? n)%Z then n else acc).

End Py.

(** ** Metric Aggregator ([aggregate_summaries]) *)

Module Aggregator.
Local Open Scope Z_scope.

Record UserMetrics := {
  um_user_prompts : Z;
  tool_results : Z;
  system_messages : Z;
  total_user_events : Z }.

Record UsageTotals := {
  total_input_tokens : Z;
  total_output_tokens : Z;
  total_cache_creation_tokens : Z;
  total_cache_read_tokens : Z;
  total_ephemeral_5m_tokens : Z;
  total_ephemeral_1h_tokens : Z;
  service_tier : json;
  total_actual_input_tokens : Z }.

Record ToolMetrics := {
  tool_calls_by_type : gmap string Z;
  total_tool_calls : Z;
  total_tool_results : Z }.

Record ThinkingMetrics := {
  thinking_enabled_turns : Z;
  thinking_disabled_turns : Z;
  assistant_with_thinking_blocks : Z;
  thinking_levels : gmap string Z;
  assistant_thinking_blocks_captured : Z }.

Record GitMetrics := {
  files_changed_count : Z;
  lines_of_code_changed_count : Z }.

Record Totals := {
  total_duration_seconds : Z;
  total_messages : Z;
  assistant_messages : Z;
  user_prompts : Z;
  user_metrics : UserMetrics;
  usage_totals : UsageTotals;
  tool_metrics : ToolMetrics;
  thinking_metrics : ThinkingMetrics;
  git_metrics : GitMetrics }.

(** The initial value of [totals]. *)
Definition totals0 : Totals := {|
  total_duration_seconds := 0;
  total_messages := 0;
  assistant_messages := 0;
  user_prompts := 0;
  user_metrics := {| um_user_prompts := 0; tool_results := 0;
                     system_messages := 0; total_user_events := 0 |};
  usage_totals := {| total_input_tokens := 0; total_output_tokens := 0;
                     total_cache_creation_tokens := 0;
                     total_cache_read_tokens := 0;
                     total_ephemeral_5m_tokens := 0;
                     total_ephemeral_1h_tokens := 0;
                     service_tier := JNull;
                     total_actual_input_tokens := 0 |};
  tool_metrics := {| tool_calls_by_type := ∅; total_tool_calls := 0;
                     total_tool_results := 0 |};
  thinking_metrics := {| thinking_enabled_turns := 0;
                         thinking_disabled_turns := 0;
                         assistant_with_thinking_blocks := 0;
                         thinking_levels := ∅;
                         assistant_thinking_blocks_captured := 0 |};
  git_metrics := {| files_changed_count := 0;
                    lines_of_code_changed_count := 0 |} |}.

(** [acc += d.get(k, 0)] where [d] is whatever an outer [get] returned. *)
Definition add_field (acc : Z) (d : json) (k : string) : option Z :=
  v ← Py.get_attr d k (JNum 0); Py.add acc v.

(** [acc = max(acc, d.get(k, 0))] *)
Definition max_field (acc : Z) (d : json) (k : string) : option Z :=
  v ← Py.get_attr d k (JNum 0); Py.max acc v.

(** [v.items()] *)
Definition items (v : json) : option (list (string * json)) :=
  match v with
  | JObj m => Some (map_to_list m)
  | _ => None
  end.

(** [for name, count in ...items(): acc[name] += count] on a
    [defaultdict(int)]. *)
Fixpoint add_counts (acc : gmap string Z) (its : list (string * json))
  : option (gmap string Z) :=
  match its with
  | [] => Some acc
  | (name, count) :: rest =>
      n ← Py.add (default 0 (acc !! name)) count;
      add_counts (<[name := n]> acc) rest
  end.

Definition add_mapping (acc : gmap string Z) (d : json) (k : string)
  : option (gmap string Z) :=
  m ← Py.get_attr d k (JObj ∅); its ← items m; add_counts acc its.

Definition step_user (um : json) (t : UserMetrics) : option UserMetrics :=
  a ← add_field (um_user_prompts t) um "user_prompts";
  b ← add_field (tool_results t) um "tool_results";
  c ← add_field (system_messages t) um "system_messages";
  d ← add_field (total_user_events t) um "total_user_events";
  Some {| um_user_prompts := a; tool_results := b; system_messages := c;
          total_user_events := d |}.

Definition step_usage (ut : json) (t : UsageTotals) : option UsageTotals :=
  a ← add_field (total_input_tokens t) ut "total_input_tokens";
  b ← add_field (total_output_tokens t) ut "total_output_tokens";
  c ← add_field (total_cache_creation_tokens t) ut "total_cache_creation_tokens";
  d ← add_field (total_cache_read_tokens t) ut "total_cache_read_tokens";
  e ← add_field (total_ephemeral_5m_tokens t) ut "total_ephemeral_5m_tokens";
  f ← add_field (total_ephemeral_1h_tokens t) ut "total_ephemeral_1h_tokens";
  g ← add_field (total_actual_input_tokens t) ut "total_actual_input_tokens";
  tier ← Py.get_attr ut "service_tier" JNull;
  Some {| total_input_tokens := a; total_output_tokens := b;
          total_cache_creation_tokens := c; total_cache_read_tokens := d;
          total_ephemeral_5m_tokens := e; total_ephemeral_1h_tokens := f;
          service_tier := if Py.truthy tier then tier else service_tier t;
          total_actual_input_tokens := g |}.

Definition step_tool (tm : json) (t : ToolMetrics) : option ToolMetrics :=
  m ← add_mapping (tool_calls_by_type t) tm "tool_calls_by_type";
  a ← add_field (total_tool_calls t) tm "total_tool_calls";
  b ← add_field (total_tool_results t) tm "total_tool_results";
  Some {| tool_calls_by_type := m; total_tool_calls := a;
          total_tool_results := b |}.

Definition step_thinking (thm : json) (t : ThinkingMetrics)
  : option ThinkingMetrics :=
  a ← add_field (thinking_enabled_turns t) thm "thinking_enabled_turns";
  b ← add_field (thinking_disabled_turns t) thm "thinking_disabled_turns";
  c ← add_field (assistant_with_thinking_blocks t) thm "assistant_with_thinking_blocks";
  d ← add_field (assistant_thinking_blocks_captured t) thm
        "assistant_thinking_blocks_captured";
  m ← add_mapping (thinking_levels t) thm "thinking_levels";
  Some {| thinking_enabled_turns := a; thinking_disabled_turns := b;
          assistant_with_thinking_blocks := c; thinking_levels := m;
          assistant_thinking_blocks_captured := d |}.

Definition step_git (gm : json) (t : GitMetrics) : option GitMetrics :=
  a ← max_field (files_changed_count t) gm "files_changed_count";
  b ← max_field (lines_of_code_changed_count t) gm "lines_of_code_changed_count";
  Some {| files_changed_count := a; lines_of_code_changed_count := b |}.

(** One iteration of [for summary in summaries]. *)
Definition step (t : Totals) (summary : gmap string json) : option Totals :=
  let sd := Py.get summary "summary_data" (JObj ∅) in
  dur ← add_field (total_duration_seconds t) sd "total_duration_seconds";
  msgs ← add_field (total_messages t) sd "total_messages";
  asst ← add_field (assistant_messages t) sd "assistant_messages";
  ups ← add_field (user_prompts t) sd "user_prompts";
  um ← Py.get_attr sd "user_metrics" (JObj ∅);
  um' ← step_user um (user_metrics t);
  ut ← Py.get_attr sd "usage_totals" (JObj ∅);
  ut' ← step_usage ut (usage_totals t);
  tm ← Py.get_attr sd "tool_metrics" (JObj ∅);
  tm' ← step_tool tm (tool_metrics t);
  thm ← Py.get_attr sd "thinking_metrics" (JObj ∅);
  thm' ← step_thinking thm (thinking_metrics t);
  gm ← Py.get_attr sd "git_metrics" (JObj ∅);
  gm' ← step_git gm (git_metrics t);
  Some {| total_duration_seconds := dur; total_messages := msgs;
          assistant_messages := asst; user_prompts := ups;
          user_metrics := um'; usage_totals := ut'; tool_metrics := tm';
          thinking_metrics := thm'; git_metrics := gm' |}.

Fixpoint loop (t : Totals) (summaries : list (gmap string json))
  : option Totals :=
  match summaries with
  | [] => Some t
  | summary :: rest => t' ← step t summary; loop t' rest
  end.

(** [aggregate_summaries(summaries)]; [None] is an uncaught exception. *)
Definition aggregate_summaries (summaries : list (gmap string json))
  : option Totals :=
  loop totals0 summaries.

(** *** What a summary reports for a counter

    The value found under [summary_data] along a path of keys, zero when a
    key of the path is missing. *)

Fixpoint lookup_path (v : json) (path : list string) : option json :=
  match path with
  | [] => Some v
  | k :: p =>
      match v with
      | JObj d => v' ← d !! k; lookup_path v' p
      | _ => None
      end
  end.

Definition counter (path : list string) (summary : gmap string json) : Z :=
  default 0 (lookup_path (JObj summary) ("summary_data" :: path) ≫= Py.as_int).

Definition Zsum {A} (f : A → Z) (l : list A) : Z :=
  foldr (λ x acc, f x + acc) 0 l.

Definition Zmax0 {A} (f : A → Z) (l : list A) : Z :=
  foldr (λ x acc, Z.max (f x) acc) 0 l.

(** The counters that are summed, each with the path of its keys below
    [summary_data]. *)
Definition scalar_fields : list ((Totals → Z) * list string) := [
  (total_duration_seconds, ["total_duration_seconds"]);
  (total_messages, ["total_messages"]);
  (assistant_messages, ["assistant_messages"]);
  (user_prompts, ["user_prompts"]);
  (um_user_prompts ∘ user_metrics, ["user_metrics"; "user_prompts"]);
  (tool_results ∘ user_metrics, ["user_metrics"; "tool_results"]);
  (system_messages ∘ user_metrics, ["user_metrics"; "system_messages"]);
  (total_user_events ∘ user_metrics, ["user_metrics"; "total_user_events"]);
  (total_input_tokens ∘ usage_totals, ["usage_totals"; "total_input_tokens"]);
  (total_output_tokens ∘ usage_totals, ["usage_totals"; "total_output_tokens"]);
  (total_cache_creation_tokens ∘ usage_totals,
     ["usage_totals"; "total_cache_creation_tokens"]);
  (total_cache_read_tokens ∘ usage_totals,
     ["usage_totals"; "total_cache_read_tokens"]);
  (total_ephemeral_5m_tokens ∘ usage_totals,
     ["usage_totals"; "total_ephemeral_5m_tokens"]);
  (total_ephemeral_1h_tokens ∘ usage_totals,
     ["usage_totals"; "total_ephemeral_1h_tokens"]);
  (total_actual_input_tokens ∘ usage_totals,
     ["usage_totals"; "total_actual_input_tokens"]);
  (total_tool_calls ∘ tool_metrics, ["tool_metrics"; "total_tool_calls"]);
  (total_tool_results ∘ tool_metrics, ["tool_metrics"; "total_tool_results"]);
  (thinking_enabled_turns ∘ thinking_metrics,
     ["thinking_metrics"; "thinking_enabled_turns"]);
  (thinking_disabled_turns ∘ thinking_metrics,
     ["thinking_metrics"; "thinking_disabled_turns"]);
  (assistant_with_thinking_blocks ∘ thinking_metrics,
     ["thinking_metrics"; "assistant_with_thinking_blocks"]);
  (assistant_thinking_blocks_captured ∘ thinking_metrics,
     ["thinking_metrics"; "assistant_thinking_blocks_captured"])].

(** The keyed breakdowns. *)
Definition keyed_fields : list ((Totals → gmap string Z) * list string) := [
  (tool_calls_by_type ∘ tool_metrics, ["tool_metrics"; "tool_calls_by_type"]);
  (thinking_levels ∘ thinking_metrics, ["thinking_metrics"; "thinking_levels"])].

(** The repository change counters. *)
Definition max_fields : list ((Totals → Z) * list string) := [
  (files_changed_count ∘ git_metrics, ["git_metrics"; "files_changed_count"]);
  (lines_of_code_changed_count ∘ git_metrics,
     ["git_metrics"; "lines_of_code_changed_count"])].

(** A summary that reports [tokens] input tokens and [files] changed
    files, and nothing else. *)
Definition sample_summary (tokens files : Z) : gmap string json :=
  {[ "type" := JStr "session_summary";
     "summary_data" := JObj {[
        "usage_totals" := JObj {[ "total_input_tokens" := JNum tokens ]};
        "git_metrics" := JObj {[ "files_changed_count" := JNum files ]} ]} ]}.

Definition val0 (v : json) (path : list string) : Z :=
  default 0 (lookup_path v path ≫= Py.as_int).

Definition sample_summaries : list (gmap string json) :=
  [sample_summary 10 3; sample_summary 20 7; sample_summary 5 2].

Definition sample_totals : Totals :=
  Eval vm_compute in default totals0 (aggregate_summaries sample_summaries).

End Aggregator.

(** ** Timestamps

    A [datetime] is either naive or aware; [dt_ticks] counts the
    microseconds since year 1 (in UTC for an aware value).  Python orders two
    values of the same kind by their ticks and raises [TypeError] when one is
    naive and the other aware. *)

Record datetime := { dt_aware : bool; dt_ticks : Z }.

#[global] Instance datetime_eq_dec : EqDecision datetime.
Proof. solve_decision. Defined.

Module Datetime.

(** [datetime.min.replace(tzinfo=timezone.utc)] *)
Definition min_utc : datetime := {| dt_aware := true; dt_ticks := 0 |}.

(** [a < b]; [None] is the [TypeError]. *)
Definition lt (a b : datetime) : option bool :=
  if Bool.eqb (dt_aware a) (dt_aware b)
  then Some (dt_ticks a <? dt_ticks b)%Z
  else None.

End Datetime.

(** The services of the Python runtime that the merge calls:
    [datetime.fromisoformat] ([None] when it raises), [str(uuid.uuid4())],
    the successive values of [datetime.now(timezone.utc).isoformat()], and
    [str()] as an f-string applies it. *)
Class Runtime := {
  fromisoformat : string → option datetime;
  uuid4 : string;
  utcnow : nat → string;
  str_of : json → string }.

(** ** [list.sort(key=...)]

    The sort is stable and compares keys with [<] only; it raises as soon as
    a comparison does.  Its result is that of a stable insertion. *)

Module PySort.
Section sort.
Context {A K : Type} (key : A → K) (lt : K → K → option bool).

Fixpoint insert (x : A) (l : list A) : option (list A) :=
  match l with
  | [] => Some [x]
  | y :: l' =>
      b ← lt (key y) (key x);
      if b : bool then r ← insert x l'; Some (y :: r) else Some (x :: l)
  end.

Fixpoint sort (l : list A) : option (list A) :=
  match l with
  | [] => Some []
  | x :: l' => s ← sort l'; insert x s
  end.
End sort.

(** What it means for a list to be sorted by timestamp keys. *)
Section keys.
Context {A : Type} (key : A → datetime).

(** The order of the keys of a sorted list. *)
Definition key_le (a b : A) : Prop :=
  (dt_ticks (key a) ≤ dt_ticks (key b))%Z.

(** All keys are of one kind, naive or aware. *)
Definition comparable (l : list A) : Prop :=
  ∃ w, Forall (λ a, dt_aware (key a) = w) l.

(** The elements with a given key, in the order of the list. *)
Definition with_key (d : datetime) (l : list A) : list A :=
  filter (λ a, key a = d) l.
End keys.
End PySort.

(** ** Merge Orchestrator ([merge_sessions.py]) *)

Module Merge.

Abbreviation event := (gmap string json).

(** A file of a logs directory: its name and, line by line, what
    [json.loads] makes of it ([None]: the line is blank or not JSON). *)
Record log_file := { name : string; lines : list (option json) }.

Record session_data := {
  session_start : option event;
  session_end : option event;
  session_summary : option event;
  messages : list event;
  other_events : list event }.

(** The consolidated file that [merge_sessions] writes. *)
Record merged_log := {
  merged_start : event;
  all_messages : list event;
  merged_summary : event;
  merged_end : event }.

Inductive outcome :=
  | NothingToMerge           (* returns False: fewer than two sessions *)
  | Merged (out : merged_log).

(** [f.stem] of a file whose name ends in [.jsonl]. *)
Definition stem (f : log_file) : string :=
  String.substring 0 (String.length (name f) - 6) (name f).

(** The session id that [find_session_files] reads off a file name:
    [f.stem.replace('session_', '')]. *)
Definition file_session_id (f : log_file) : string :=
  PyStr.replace "session_" "" (stem f).

(** [event.get('type') == t] *)
Definition has_type (e : event) (t : string) : bool :=
  match e !! "type" with
  | Some (JStr s) => String.eqb s t
  | _ => false
  end.

(** The events that count as messages. *)
Definition is_message (e : event) : bool :=
  has_type e "user" || has_type e "assistant" || has_type e "assistant_thinking".

(** The events among the parsed lines that are JSON objects. *)
Definition objects (events : list json) : list event :=
  omap (λ v, match v with JObj e => Some e | _ => None end) events.

Section with_runtime.
Context `{Runtime}.

Definition parse_timestamp (ts : json) : datetime :=
  if negb (Py.truthy ts) then Datetime.min_utc
  else match ts with
       | JStr s =>
           default Datetime.min_utc
             (fromisoformat (PyStr.replace "Z" "+00:00" s))
       | _ => Datetime.min_utc
       end.

(** [logs_dir.glob("session_*.jsonl")] keeps these names. *)
Definition is_session_name (n : string) : bool :=
  PyStr.startswith "session_" n && PyStr.endswith ".jsonl" n
  && (14 <=? String.length n)%nat.

Fixpoint get_start_time (ls : list (option json)) : datetime :=
  match ls with
  | [] => Datetime.min_utc
  | Some (JObj e) :: rest =>
      if has_type e "session_start"
      then parse_timestamp (Py.get e "timestamp" (JStr ""))
      else get_start_time rest
  | _ :: _ => Datetime.min_utc
  end.

(** The processed files of [find_session_files], in merge order; [dir]
    lists the directory in the order [glob] yields it. *)
Definition find_session_files (dir : list log_file)
  : option (list log_file) :=
  let processed_files :=
    filter (λ f, negb (PyStr.contains "_raw.jsonl" (name f)))
           (filter (λ f, is_session_name (name f)) dir) in
  PySort.sort (λ f, get_start_time (lines f)) Datetime.lt processed_files.

Definition read_session_events (f : log_file) : list json :=
  omap id (lines f).

Definition data0 : session_data := {|
  session_start := None; session_end := None; session_summary := None;
  messages := []; other_events := [] |}.

Definition classify (data : session_data) (e : event) : session_data :=
  if has_type e "session_start" then
    {| session_start := Some e; session_end := session_end data;
       session_summary := session_summary data;
       messages := messages data; other_events := other_events data |}
  else if has_type e "session_end" then
    {| session_start := session_start data; session_end := Some e;
       session_summary := session_summary data;
       messages := messages data; other_events := other_events data |}
  else if has_type e "session_summary" then
    {| session_start := session_start data; session_end := session_end data;
       session_summary := Some e;
       messages := messages data; other_events := other_events data |}
  else if has_type e "user" || has_type e "assistant"
          || has_type e "assistant_thinking" then
    {| session_start := session_start data; session_end := session_end data;
       session_summary := session_summary data;
       messages := messages data ++ [e];
       other_events := other_events data |}
  else
    {| session_start := session_start data; session_end := session_end data;
       session_summary := session_summary data;
       messages := messages data;
       other_events := other_events data ++ [e] |}.

(** [extract_session_data]; an event that is not a dictionary has no
    [get] and the exception is not caught. *)
Fixpoint extract_from (data : session_data) (events : list json)
  : option session_data :=
  match events with
  | [] => Some data
  | JObj e :: rest => extract_from (classify data e) rest
  | _ :: _ => None
  end.

Definition extract_session_data (events : list json)
  : option session_data :=
  extract_from data0 events.

(** [[sd.get('session_start', {}).get('session_id', 'unknown') for sd in
    all_session_data]]: the key is always there, so a session without a
    start record yields [None], which has no [get]. *)
Definition original_ids (all_session_data : list session_data)
  : option (list json) :=
  mapM (λ sd, e ← session_start sd;
              Some (Py.get e "session_id" (JStr "unknown")))
       all_session_data.

Definition ab_keys : list string :=
  ["task_id"; "model_lane"; "experiment_root"; "model_name"].

(** [for key in [...]: if first_start.get(key): target[key] =
    first_start[key]] *)
Definition copy_ab_metadata (first_start target : event) : event :=
  foldl (λ tgt key,
           match first_start !! key with
           | Some v => if Py.truthy v then <[key := v]> tgt else tgt
           | None => tgt
           end) target ab_keys.

(** The copy of one message that goes to the merged log. *)
Definition retag (merged_session_id : string) (msg : event) : event :=
  <["original_session_id" := Py.get msg "session_id" (JStr "unknown")]>
    (<["session_id" := JStr merged_session_id]> msg).

Definition collect_messages (merged_session_id : string)
    (all_session_data : list session_data) : list event :=
  concat (map (λ sd, map (retag merged_session_id) (messages sd))
              all_session_data).

Definition message_key (m : event) : datetime :=
  parse_timestamp (Py.get m "timestamp" (JStr "")).

(** The aggregate as the dictionary that is spread into
    [summary_data]. *)
Definition counts_dict (m : gmap string Z) : json := JObj (JNum <$> m).

Definition totals_dict (t : Aggregator.Totals) : event :=
  let um := Aggregator.user_metrics t in
  let ut := Aggregator.usage_totals t in
  let tm := Aggregator.tool_metrics t in
  let thm := Aggregator.thinking_metrics t in
  let gm := Aggregator.git_metrics t in
  list_to_map [
    ("total_duration_seconds", JNum (Aggregator.total_duration_seconds t));
    ("total_messages", JNum (Aggregator.total_messages t));
    ("assistant_messages", JNum (Aggregator.assistant_messages t));
    ("user_prompts", JNum (Aggregator.user_prompts t));
    ("user_metrics", JObj (list_to_map [
       ("user_prompts", JNum (Aggregator.um_user_prompts um));
       ("tool_results", JNum (Aggregator.tool_results um));
       ("system_messages", JNum (Aggregator.system_messages um));
       ("total_user_events", JNum (Aggregator.total_user_events um))]));
    ("usage_totals", JObj (list_to_map [
       ("total_input_tokens", JNum (Aggregator.total_input_tokens ut));
       ("total_output_tokens", JNum (Aggregator.total_output_tokens ut));
       ("total_cache_creation_tokens",
          JNum (Aggregator.total_cache_creation_tokens ut));
       ("total_cache_read_tokens", JNum (Aggregator.total_cache_read_tokens ut));
       ("total_ephemeral_5m_tokens",
          JNum (Aggregator.total_ephemeral_5m_tokens ut));
       ("total_ephemeral_1h_tokens",
          JNum (Aggregator.total_ephemeral_1h_tokens ut));
       ("service_tier", Aggregator.service_tier ut);
       ("total_actual_input_tokens",
          JNum (Aggregator.total_actual_input_tokens ut))]));
    ("tool_metrics", JObj (list_to_map [
       ("tool_calls_by_type", counts_dict (Aggregator.tool_calls_by_type tm));
       ("total_tool_calls", JNum (Aggregator.total_tool_calls tm));
       ("total_tool_results", JNum (Aggregator.total_tool_results tm))]));
    ("thinking_metrics", JObj (list_to_map [
       ("thinking_enabled_turns", JNum (Aggregator.thinking_enabled_turns thm));
       ("thinking_disabled_turns",
          JNum (Aggregator.thinking_disabled_turns thm));
       ("assistant_with_thinking_blocks",
          JNum (Aggregator.assistant_with_thinking_blocks thm));
       ("thinking_levels", counts_dict (Aggregator.thinking_levels thm));
       ("assistant_thinking_blocks_captured",
          JNum (Aggregator.assistant_thinking_blocks_captured thm))]));
    ("git_metrics", JObj (list_to_map [
       ("files_changed_count", JNum (Aggregator.files_changed_count gm));
       ("lines_of_code_changed_count",
          JNum (Aggregator.lines_of_code_changed_count gm))]))].

Definition transcript_path (n : nat) : json :=
  JStr ("merged_from_" +:+ PyStr.of_nat n +:+ "_sessions").

Definition build_merged_start (merged_session_id : string) (n : nat)
    (first_start : event) (ids : list json) : event :=
  copy_ab_metadata first_start
    (list_to_map [
       ("type", JStr "session_start");
       ("timestamp", Py.get first_start "timestamp" (JStr (utcnow 0)));
       ("session_id", JStr merged_session_id);
       ("transcript_path", transcript_path n);
       ("cwd", Py.get first_start "cwd" (JStr ""));
       ("git_metadata", Py.get first_start "git_metadata" JNull);
       ("merged_from_sessions", JArr ids)]).

Definition build_merged_summary (merged_session_id : string) (n : nat)
    (first_start : event) (ids : list json)
    (aggregated_data : Aggregator.Totals) : event :=
  let output_prefix := "session_" +:+ merged_session_id in
  let model_lane := Py.get first_start "model_lane" (JStr "") in
  let extra : event := list_to_map [
    ("merged_sessions_count", JNum (Z.of_nat n));
    ("original_session_ids", JArr ids);
    ("files", JObj (list_to_map [
       ("processed_log", JStr (output_prefix +:+ ".jsonl"));
       ("raw_transcript", JStr (output_prefix +:+ "_raw.jsonl"));
       ("git_diff", if Py.truthy model_lane
                    then JStr (str_of model_lane +:+ "_diff.patch")
                    else JNull)]));
    ("validation", JObj (list_to_map [
       ("complete", JBool true);
       ("unique_messages_processed",
          JNum (Aggregator.total_messages aggregated_data));
       ("thinking_blocks_extracted",
          JNum (Aggregator.assistant_thinking_blocks_captured
                  (Aggregator.thinking_metrics aggregated_data)))]))] in
  copy_ab_metadata first_start
    (list_to_map [
       ("type", JStr "session_summary");
       ("timestamp", JStr (utcnow 1));
       ("session_id", JStr merged_session_id);
       ("transcript_path", transcript_path n);
       ("cwd", Py.get first_start "cwd" (JStr ""));
       ("summary_data", JObj (extra ∪ totals_dict aggregated_data))]).

Definition build_merged_end (merged_session_id : string) (n : nat)
    (first_start last_end : event) : event :=
  copy_ab_metadata first_start
    (list_to_map [
       ("type", JStr "session_end");
       ("timestamp", Py.get last_end "timestamp" (JStr (utcnow 2)));
       ("session_id", JStr merged_session_id);
       ("transcript_path", transcript_path n);
       ("cwd", Py.get last_end "cwd" (Py.get first_start "cwd" (JStr "")));
       ("reason", JStr "merged_sessions")]).

(** [merge_sessions(logs_dir)] up to the point where the consolidated file
    is written; [None] is an exception that nothing catches.  The raw
    transcripts and the move of the originals come after that point and
    do not change the file. *)
Definition merge_sessions (dir : list log_file) : option outcome :=
  processed_files ← find_session_files dir;
  if (length processed_files <? 2)%nat then Some NothingToMerge else
  all_session_data ←
    mapM (λ pf, extract_session_data (read_session_events pf))
         processed_files;
  let merged_session_id := uuid4 in
  first_session ← head all_session_data;
  last_session ← last all_session_data;
  let first_start := default ∅ (session_start first_session) in
  let last_end := default ∅ (session_end last_session) in
  let n := length processed_files in
  ids ← original_ids all_session_data;
  let start := build_merged_start merged_session_id n first_start ids in
  msgs ← PySort.sort message_key Datetime.lt
            (collect_messages merged_session_id all_session_data);
  let all_summaries := omap session_summary all_session_data in
  aggregated_data ← Aggregator.aggregate_summaries all_summaries;
  ids' ← original_ids all_session_data;
  Some (Merged {|
    merged_start := start;
    all_messages := msgs;
    merged_summary :=
      build_merged_summary merged_session_id n first_start ids'
        aggregated_data;
    merged_end := build_merged_end merged_session_id n first_start last_end
  |}).

(** The claim that the end record carries the latest end timestamp, in
    the words of the specification: [ts] is the timestamp of the end
    record of one of the sessions, and no session has an end record
    with a later one. *)
Definition is_latest_end (ts : json) (sessions : list session_data)
  : Prop :=
  (∃ s e, s ∈ sessions ∧ session_end s = Some e ∧ e !! "timestamp" = Some ts)
  ∧ ∀ s e ts', s ∈ sessions → session_end s = Some e →
               e !! "timestamp" = Some ts' →
               Datetime.lt (parse_timestamp ts) (parse_timestamp ts')
               ≠ Some true.

(** A message of the merged log comes from file [f]. *)
Definition comes_from (m : event) (f : log_file) : Prop :=
  ∃ msg, Some (JObj msg) ∈ lines f ∧ m = retag uuid4 msg.

(** The claim that every message is traceable to its file, in the words
    of the specification. *)
Definition traceable (files : list log_file) (out : merged_log) : Prop :=
  ∀ m, m ∈ all_messages out →
    m !! "session_id" = Some (JStr uuid4) ∧
    ∃ f, f ∈ files ∧ comes_from m f ∧
         m !! "original_session_id" = Some (JStr (file_session_id f)).

(** The lines of the consolidated file, in the order they are written. *)
Definition output_lines (out : merged_log) : list event :=
  merged_start out :: all_messages out ++ [merged_summary out; merged_end out].

End with_runtime.
End Merge.

(** ** Pre-upload validation ([validate_experiment_files]) *)

Module Validate.

(** What the validation asks of the working directory.  [glob_sessions d]
    lists the names matching [session_*.jsonl] in directory [d] (nothing
    when [d] does not exist). *)
Record filesystem := {
  is_file : string → bool;
  is_dir : string → bool;
  path_exists : string → bool;
  glob_sessions : string → list string }.

(** [print_error] prints its message and leaves through [sys.exit(1)]. *)
Inductive result :=
  | Fatal (message : string)
  | Passed.

Definition required_files : list string :=
  ["manifest.json";
   "model_a/.claude/settings.local.json";
   "model_b/.claude/settings.local.json"].

Definition required_dirs : list string :=
  ["model_a"; "model_b"; "logs"; "snapshots"].

Definition missing_files (fs : filesystem) : list string :=
  filter (λ file_path, negb (is_file fs file_path)) required_files.

Definition missing_dirs (fs : filesystem) : list string :=
  filter (λ dir_path, negb (is_dir fs dir_path)) required_dirs.

(** The session-log check of one lane; [Some] is the message of the
    [print_error] it ends in.  The warnings it prints otherwise do not
    change the control flow. *)
Definition check_lane (fs : filesystem) (lane : string) : option string :=
  let all_logs := glob_sessions fs ("logs/" +:+ lane) in
  let mandatory :=
    filter (λ n, negb (PyStr.endswith "_raw.jsonl" n)) all_logs in
  match mandatory with
  | [] => Some ("No mandatory session log file found in logs/" +:+ lane
                +:+ "/ (expected session_*.jsonl)")
  | [_] => None
  | _ => Some ("Found " +:+ PyStr.of_nat (length mandatory)
               +:+ " mandatory session files in logs/" +:+ lane
               +:+ "/, expected exactly 1")
  end.

(** The message of the final report. *)
Definition report (all_missing : list string) : string :=
  "Validation failed. Missing required items:" +:+ PyStr.newline +:+
  PyStr.join PyStr.newline (map (λ item, "  - " +:+ item) all_missing).

Definition validate_experiment_files (fs : filesystem) : result :=
  if negb (is_file fs "manifest.json") then
    Fatal "manifest.json not found in current directory"
  else if negb (is_dir fs "snapshots") then
    Fatal "snapshots folder not found in current directory"
  else
    let lane_a := if path_exists fs "logs" then check_lane fs "model_a" else None in
    match lane_a with
    | Some msg => Fatal msg
    | None =>
        let lane_b :=
          if path_exists fs "logs" then check_lane fs "model_b" else None in
        match lane_b with
        | Some msg => Fatal msg
        | None =>
            let all_missing := missing_files fs ++ missing_dirs fs in
            match all_missing with
            | [] => Passed
            | _ => Fatal (report all_missing)
            end
        end
    end.

End Validate.

(** ** Version Ledger, Artifact Transfer and Upload Scheduler ([submit.py]) *)

Module Submit.
Local Open Scope Z_scope.

(** *** Version Ledger *)

Definition get_upload_path_from_version
    (sprint_folder task_id : string) (version : Z) : string :=
  if version =? 0 then sprint_folder +:+ "/" +:+ task_id
  else sprint_folder +:+ "/" +:+ task_id +:+ "_v" +:+ PyStr.of_Z version.

(** The version of the first attempt, from the manifest read at start-up.
    [None]: [last_version + 1] raises. *)
Definition starting_version (manifest : gmap string json) : option Z :=
  match Py.get manifest "last_submission_version" JNull with
  | JNull => Some 0
  | last_version => n ← Py.as_int last_version; Some (n + 1)
  end.

(** The files the upload phase reads: the parsed content of
    [manifest.json] ([None] when it cannot be read as JSON), the [*.jsonl]
    files below [logs/], what [create_snapshots_zip] returns, and the files
    below the [.claude] directories, each with its path and its name. *)
Record disk := {
  manifest_json : option json;
  log_paths : list string;
  snapshots_zip : option string;
  claude_files : list (string * string) }.

Definition write_manifest (d : disk) (v : json) : disk :=
  {| manifest_json := Some v; log_paths := log_paths d;
     snapshots_zip := snapshots_zip d; claude_files := claude_files d |}.

(** [update_manifest_version("manifest.json", new_version)]: the result and
    the disk afterwards. *)
Definition update_manifest_version (d : disk) (new_version : Z)
  : bool * disk :=
  match manifest_json d with
  | Some (JObj manifest) =>
      (true,
       write_manifest d
         (JObj (<["last_submission_version" := JNum new_version]> manifest)))
  | _ => (false, d)
  end.

Definition normalize (p : string) : string :=
  PyStr.replace PyStr.backslash "/" p.

Definition skipped (file_path_str file_name : string) : bool :=
  PyStr.contains "__pycache__" file_path_str
  || PyStr.endswith ".pyc" file_name || PyStr.endswith ".pyo" file_name
  || PyStr.endswith ".DS_Store" file_name
  || bool_decide (file_name ∈ [".DS_Store"; "Thumbs.db"; "desktop.ini"]).

Definition get_file_list_for_upload (d : disk) : list string :=
  ["manifest.json"]
  ++ map normalize (log_paths d)
  ++ match snapshots_zip d with Some z => [z] | None => [] end
  ++ map (λ f, normalize f.1)
         (filter (λ f, negb (skipped f.1 f.2)) (claude_files d)).

(** *** Artifact Transfer *)

(** One run of [uploader.upload()]: it returns, or raises one of
    [ConnectionError], [OSError], [TimeoutError], or raises another
    exception whose text is [msg]. *)
Inductive try_outcome :=
  | Uploaded
  | NetworkError
  | OtherError (msg : string).

(** The storage endpoint and the local file system as the transfer sees
    them: [stat_local f] is the text of the exception that [stat] raises on
    [f], if it does; [tus_upload f remote k] is what the [k]-th try of the
    transfer of [f] to [remote] does. *)
Class Storage := {
  stat_local : string → option string;
  tus_upload : string → string → nat → try_outcome }.

Definition max_upload_retries : nat := 3.

Definition network_keywords : list string :=
  ["ssl"; "connection"; "timeout"; "network"; "refused"; "reset"].

(** The outer [except Exception as e] of [upload_file_to_supabase]. *)
Definition classify_error (error_msg : string) : bool * option string :=
  if PyStr.contains "403" error_msg
     || PyStr.contains "forbidden" (PyStr.lower error_msg)
  then (false, Some "403")
  else if PyStr.contains "409" error_msg
          || PyStr.contains "conflict" (PyStr.lower error_msg)
  then (false, Some "409")
  else (false, Some "other").

(** A try that the transfer repeats: a network error, or another error
    whose text names one. *)
Definition transient (o : try_outcome) : bool :=
  match o with
  | Uploaded => false
  | NetworkError => true
  | OtherError msg =>
      existsb (λ keyword, PyStr.contains keyword (PyStr.lower msg))
              network_keywords
  end.
Section with_storage.
Context `{Storage}.

(** [for retry_attempt in range(max_upload_retries)]; the code after the
    loop is only reached with [last_network_error] set. *)
Fixpoint retry_loop (local_file_path remote_file_path : string)
    (range : list nat) : bool * option string :=
  match range with
  | [] => (false, Some "other")
  | retry_attempt :: rest =>
      match tus_upload local_file_path remote_file_path retry_attempt with
      | Uploaded => (true, None)
      | NetworkError =>
          if (retry_attempt <? max_upload_retries - 1)%nat
          then retry_loop local_file_path remote_file_path rest
          else (false, Some "other")
      | OtherError msg =>
          if existsb (λ keyword, PyStr.contains keyword (PyStr.lower msg))
                     network_keywords
          then
            if (retry_attempt <? max_upload_retries - 1)%nat
            then retry_loop local_file_path remote_file_path rest
            else (false, Some "other")
          else classify_error msg
      end
  end.

Definition upload_file_to_supabase (local_file_path remote_file_path : string)
  : bool * option string :=
  match stat_local local_file_path with
  | Some msg => classify_error msg
  | None =>
      retry_loop local_file_path remote_file_path (seq 0 max_upload_retries)
  end.

(** *** Upload Scheduler *)

Record tally := {
  uploaded_count : nat;
  failed_files : list string;
  conflict_error_codes : gset string }.

Definition tally0 : tally :=
  {| uploaded_count := 0; failed_files := []; conflict_error_codes := ∅ |}.

(** What the future submitted for [local_file] returns. *)
Definition task_result (task_id local_file : string) : bool * option string :=
  let normalized_file_path := normalize local_file in
  let remote_file_path := task_id +:+ "/" +:+ normalized_file_path in
  upload_file_to_supabase local_file remote_file_path.

(** The body of [for future in as_completed(...)] for one file. *)
Definition record_result (task_id : string) (t : tally) (local_file : string)
  : tally :=
  match task_result task_id local_file with
  | (true, _) =>
      {| uploaded_count := S (uploaded_count t);
         failed_files := failed_files t;
         conflict_error_codes := conflict_error_codes t |}
  | (false, error_code) =>
      {| uploaded_count := uploaded_count t;
         failed_files := failed_files t ++ [local_file];
         conflict_error_codes :=
           match error_code with
           | Some c => if bool_decide (c ∈ ["403"; "409"])
                       then {[ c ]} ∪ conflict_error_codes t
                       else conflict_error_codes t
           | None => conflict_error_codes t
           end |}
  end.

(** [upload_experiment_data]: the uploads run on five workers and are
    joined before the result is computed; the result does not depend on
    the order in which they complete, which is taken to be the order of
    [upload_files]. *)
Definition upload_experiment_data (task_id user_folder : string)
    (upload_files : list string) (manifest : gmap string json)
  : bool * bool * nat :=
  let t := foldl (record_result task_id) tally0 upload_files in
  let had_conflict_errors :=
    bool_decide (0 < size (conflict_error_codes t))%nat in
  (bool_decide (length (failed_files t) = 0%nat), had_conflict_errors,
   uploaded_count t).

(** *** The upload phase of [main] *)

Definition max_attempts : nat := 5.

(** What one pass of the attempt loop did; [ar_manifest] is the content
    of [manifest.json] when the pass is over.  The records are kept for
    the statements only, the code does not read them. *)
Record attempt_record := {
  ar_attempt : nat;
  ar_version : Z;
  ar_upload_path : string;
  ar_success : bool;
  ar_had_conflict_errors : bool;
  ar_uploaded_count : nat;
  ar_manifest : option json }.

(** The variables of [main] that the loop reads and writes. *)
Record run_state := {
  attempt_version : Z;
  upload_files : list string;
  on_disk : disk;
  upload_successful : bool;
  final_upload_path : option string;
  final_version : option Z;
  history : list attempt_record }.

Inductive control :=
  | Next                     (* falls through to the next pass *)
  | Break
  | Exit (message : string). (* [print_error] *)

Definition attempt_body (sprint_folder task_id : string)
    (manifest : gmap string json) (attempt : nat) (st : run_state)
  : control * run_state :=
  let upload_path :=
    get_upload_path_from_version sprint_folder task_id (attempt_version st) in
  let '(success, had_conflict_errors, uploaded_count) :=
    upload_experiment_data upload_path upload_path (upload_files st) manifest in
  let d :=
    if (0 <? uploaded_count)%nat
    then (update_manifest_version (on_disk st) (attempt_version st)).2
    else on_disk st in
  let final_version' :=
    if (0 <? uploaded_count)%nat then Some (attempt_version st)
    else final_version st in
  let rec := {| ar_attempt := attempt; ar_version := attempt_version st;
                ar_upload_path := upload_path; ar_success := success;
                ar_had_conflict_errors := had_conflict_errors;
                ar_uploaded_count := uploaded_count;
                ar_manifest := manifest_json d |} in
  let hist := history st ++ [rec] in
  if success then
    (Break,
     {| attempt_version := attempt_version st;
        upload_files := upload_files st; on_disk := d;
        upload_successful := true;
        final_upload_path := Some upload_path;
        final_version := final_version'; history := hist |})
  else if had_conflict_errors && (attempt <? max_attempts - 1)%nat then
    (Next,
     {| attempt_version := attempt_version st + 1;
        upload_files := get_file_list_for_upload d; on_disk := d;
        upload_successful := upload_successful st;
        final_upload_path := final_upload_path st;
        final_version := final_version'; history := hist |})
  else
    (Exit (if had_conflict_errors
           then "Upload failed: Files already exist and max attempts ("
                +:+ PyStr.of_nat max_attempts +:+ ") reached"
           else "Upload failed with non-conflict errors"),
     {| attempt_version := attempt_version st;
        upload_files := upload_files st; on_disk := d;
        upload_successful := upload_successful st;
        final_upload_path := final_upload_path st;
        final_version := final_version'; history := hist |}).

(** [for attempt in range(max_attempts)] *)
Fixpoint attempts (sprint_folder task_id : string)
    (manifest : gmap string json) (range : list nat) (st : run_state)
  : control * run_state :=
  match range with
  | [] => (Next, st)
  | attempt :: rest =>
      match attempt_body sprint_folder task_id manifest attempt st with
      | (Next, st') => attempts sprint_folder task_id manifest rest st'
      | stop => stop
      end
  end.

Inductive run_result :=
  | Submitted (st : run_state)
  | Failed (message : string) (st : run_state).

(** The pass uploaded something and the manifest it left on disk
    records the version of the pass. *)
Definition version_persisted (r : attempt_record) : Prop :=
  ∃ m, ar_manifest r = Some (JObj m) ∧
       m !! "last_submission_version" = Some (JNum (ar_version r)).

Definition persists (r : attempt_record) : Prop :=
  (0 < ar_uploaded_count r)%nat → version_persisted r.

(** The passes that a run of the loop adds to the history: they are
    numbered from [a], their versions go up by one from [v], and every pass
    but the last failed with a conflict. *)
Definition consecutive (a : nat) (v : Z) (new : list attempt_record) : Prop :=
  map ar_attempt new = seq a (length new) ∧
  map ar_version new = map (λ i, v + Z.of_nat i) (seq 0 (length new)) ∧
  ∀ i r, new !! i = Some r → (S i < length new)%nat →
         ar_success r = false ∧ ar_had_conflict_errors r = true.

(** [manifest.json] holds a JSON object. *)
Definition readable (d : disk) : Prop :=
  ∃ m, manifest_json d = Some (JObj m).

Definition final_state (res : run_result) : run_state :=
  match res with
  | Submitted st => st
  | Failed _ st => st
  end.

(** [main] from the choice of the first version to the end of the
    attempt loop, for a run that is confirmed and is not a dry run.
    [manifest] is the manifest as read at start-up and [d] the disk when
    the phase begins.  [None]: the first version cannot be computed. *)
Definition upload_phase (sprint_folder task_id : string)
    (manifest : gmap string json) (d : disk) : option run_result :=
  attempt_version0 ← starting_version manifest;
  let st0 := {| attempt_version := attempt_version0;
                upload_files := get_file_list_for_upload d;
                on_disk := d; upload_successful := false;
                final_upload_path := None; final_version := None;
                history := [] |} in
  match attempts sprint_folder task_id manifest (seq 0 max_attempts) st0 with
  | (Exit message, st) => Some (Failed message st)
  | (_, st) =>
      if upload_successful st then Some (Submitted st)
      else Some (Failed "Upload failed after all attempts" st)
  end.

End with_storage.
End Submit.

(** ** A runtime for the examples

    [parse_iso] reads the layouts [YYYY-MM-DDTHH:MM:SS] (naive) and
    [YYYY-MM-DDTHH:MM:SS+HH:MM] (aware) as [datetime.fromisoformat] does and
    rejects every other text; the examples use these two layouts only. *)

Module SampleRuntime.
Local Open Scope Z_scope.

Definition digit (c : ascii) : option Z :=
  let n := Z.of_nat (Ascii.nat_of_ascii c) in
  if (48 <=? n) && (n <=? 57) then Some (n - 48) else None.

Fixpoint number_from (acc : Z) (s : string) : option Z :=
  match s with
  | EmptyString => Some acc
  | String c s' => d ← digit c; number_from (10 * acc + d) s'
  end.

(** The number written at [s[i : i + n]]. *)
Definition number_at (i n : nat) (s : string) : option Z :=
  number_from 0 (String.substring i n s).

Definition char_at (i : nat) (c : string) (s : string) : bool :=
  String.eqb (String.substring i 1 s) c.

Definition is_leap (y : Z) : bool :=
  (y mod 4 =? 0) && (negb (y mod 100 =? 0) || (y mod 400 =? 0)).

Definition days_in_month (y m : Z) : Z :=
  if m =? 2 then (if is_leap y then 29 else 28)
  else if (m =? 4) || (m =? 6) || (m =? 9) || (m =? 11) then 30 else 31.

Definition days_before_year (y : Z) : Z :=
  (y - 1) * 365 + (y - 1) / 4 - (y - 1) / 100 + (y - 1) / 400.

Definition days_before_month (y m : Z) : Z :=
  foldr (λ k acc, days_in_month y (Z.of_nat k) + acc) 0
        (seq 1 (Z.to_nat m - 1)).

Definition parse_iso (s : string) : option datetime :=
  let len := String.length s in
  if negb ((len =? 19)%nat || (len =? 25)%nat) then None else
  if negb (char_at 4 "-" s && char_at 7 "-" s && char_at 10 "T" s
           && char_at 13 ":" s && char_at 16 ":" s) then None else
  y ← number_at 0 4 s; mo ← number_at 5 2 s; d ← number_at 8 2 s;
  h ← number_at 11 2 s; mi ← number_at 14 2 s; se ← number_at 17 2 s;
  if negb ((1 <=? y) && (1 <=? mo) && (mo <=? 12) && (1 <=? d)
           && (d <=? days_in_month y mo) && (h <=? 23) && (mi <=? 59)
           && (se <=? 59)) then None else
  let secs :=
    (days_before_year y + days_before_month y mo + d - 1) * 86400
    + h * 3600 + mi * 60 + se in
  if (len =? 19)%nat then
    Some {| dt_aware := false; dt_ticks := secs * 1000000 |}
  else
    if negb (char_at 22 ":" s) then None else
    sign ← (if char_at 19 "+" s then Some 1
            else if char_at 19 "-" s then Some (-1) else None);
    oh ← number_at 20 2 s; om ← number_at 23 2 s;
    if negb ((oh <=? 23) && (om <=? 59)) then None else
    Some {| dt_aware := true;
            dt_ticks := (secs - sign * (oh * 3600 + om * 60)) * 1000000 |}.

(** [str()] of a scalar. *)
Definition str_scalar (v : json) : string :=
  match v with
  | JStr s => s
  | JNum n => PyStr.of_Z n
  | JBool b => if b then "True" else "False"
  | _ => "None"
  end.

Definition sample_runtime : Runtime := {|
  fromisoformat := parse_iso;
  uuid4 := "3f2b8c1e-5d4a-4e6f-9a7b-0c1d2e3f4a5b";
  utcnow := λ i, "2025-06-01T12:00:0" +:+ PyStr.of_nat i +:+ "+00:00";
  str_of := str_scalar |}.

End SampleRuntime.

(** ** Sample directories *)

Module Samples.
Import Merge.

Definition line (fields : list (string * json)) : option json :=
  Some (JObj (list_to_map fields)).

(** A session that starts at 10:00 and ends at 12:00. *)
Definition session_a : log_file := {|
  name := "session_aaa.jsonl";
  lines := [
    line [("type", JStr "session_start"); ("session_id", JStr "aaa");
          ("timestamp", JStr "2024-03-01T10:00:00Z")];
    line [("type", JStr "user"); ("session_id", JStr "aaa");
          ("timestamp", JStr "2024-03-01T11:20:00Z")];
    line [("type", JStr "assistant"); ("session_id", JStr "aaa");
          ("timestamp", JStr "2024-03-01T11:45:00Z")];
    line [("type", JStr "session_end"); ("session_id", JStr "aaa");
          ("timestamp", JStr "2024-03-01T12:00:00Z")]] |}.

(** A session that starts at 11:00 and ends at 11:30. *)
Definition session_b : log_file := {|
  name := "session_bbb.jsonl";
  lines := [
    line [("type", JStr "session_start"); ("session_id", JStr "bbb");
          ("timestamp", JStr "2024-03-01T11:00:00Z")];
    line [("type", JStr "user"); ("session_id", JStr "bbb");
          ("timestamp", JStr "2024-03-01T11:10:00Z")];
    line [("type", JStr "session_end"); ("session_id", JStr "bbb");
          ("timestamp", JStr "2024-03-01T11:30:00Z")]] |}.

Definition two_sessions : list log_file := [session_b; session_a].

(** A session one of whose messages has no [session_id] field. *)
Definition session_c : log_file := {|
  name := "session_ccc.jsonl";
  lines := [
    line [("type", JStr "session_start"); ("session_id", JStr "ccc");
          ("timestamp", JStr "2024-03-01T09:00:00Z")];
    line [("type", JStr "user");
          ("timestamp", JStr "2024-03-01T09:05:00Z")];
    line [("type", JStr "session_end"); ("session_id", JStr "ccc");
          ("timestamp", JStr "2024-03-01T09:30:00Z")]] |}.

Definition untagged_sessions : list log_file := [session_c; session_b].

Definition raw_a : log_file := {|
  name := "session_aaa_raw.jsonl";
  lines := [line [("sessionId", JStr "aaa")]] |}.

(** One processed session and its raw transcript. *)
Definition one_session : list log_file := [session_a; raw_a].

(** A session without a start record. *)
Definition session_d : log_file := {|
  name := "session_ddd.jsonl";
  lines := [
    line [("type", JStr "user"); ("session_id", JStr "ddd");
          ("timestamp", JStr "2024-03-01T08:05:00Z")];
    line [("type", JStr "session_end"); ("session_id", JStr "ddd");
          ("timestamp", JStr "2024-03-01T08:30:00Z")]] |}.

Definition headless_sessions : list log_file := [session_a; session_d].

(** A session whose message has a timestamp without UTC offset. *)
Definition session_e : log_file := {|
  name := "session_eee.jsonl";
  lines := [
    line [("type", JStr "session_start"); ("session_id", JStr "eee");
          ("timestamp", JStr "2024-03-01T07:00:00Z")];
    line [("type", JStr "user"); ("session_id", JStr "eee");
          ("timestamp", JStr "2024-03-01T07:05:00")]] |}.

Definition mixed_sessions : list log_file := [session_e; session_b].
Definition classified (f : log_file) : session_data :=
  default data0 (extract_session_data (read_session_events f)).

End Samples.

(** ** Sample submissions *)

Module SubmitSamples.
Import Submit.

Definition sample_manifest : gmap string json :=
  list_to_map [
    ("expert_name", JStr "expert");
    ("task_id", JStr "task42");
    ("timestamp", JStr "2024-03-01T09:00:00Z");
    ("repo_url", JStr "https://example.org/repo.git");
    ("assignments", JObj ∅)].

(** A working directory with five files to upload. *)
Definition sample_disk : disk := {|
  manifest_json := Some (JObj sample_manifest);
  log_paths := ["logs/model_a/session_aaa.jsonl";
                "logs/model_b/session_bbb.jsonl"];
  snapshots_zip := Some "snapshots.zip";
  claude_files := [("model_a/.claude/settings.local.json",
                    "settings.local.json")] |}.

(** The endpoint refuses every transfer with status 403. *)
Definition forbidden_storage : Storage := {|
  stat_local := λ _, None;
  tus_upload := λ _ _ _,
    OtherError "Attempt to retrieve create file url with status 403" |}.

(** The unversioned folder of task [task42] is taken, the folder of
    version 1 is free. *)
Definition occupied_storage : Storage := {|
  stat_local := λ _, None;
  tus_upload := λ _ remote _,
    if PyStr.startswith "sprint1/task42_v1/" remote then Uploaded
    else OtherError "Attempt to retrieve create file url with status 409" |}.

(** The manifest and the first log go through, the endpoint answers 500
    to everything else. *)
Definition flaky_storage : Storage := {|
  stat_local := λ _, None;
  tus_upload := λ local _ _,
    if bool_decide (local ∈ ["manifest.json";
                             "logs/model_a/session_aaa.jsonl"])
    then Uploaded
    else OtherError "Upload failed with status 500" |}.

(** The first try of every transfer is cut by the network, the second
    goes through. *)
Definition recovering_storage : Storage := {|
  stat_local := λ _, None;
  tus_upload := λ _ _ k, if (k =? 0)%nat then NetworkError else Uploaded |}.
Definition sample_files : list string := get_file_list_for_upload sample_disk.

(** The variables of [main] when the loop is entered at version 0. *)
Definition state0 `{Storage} : run_state := {|
  attempt_version := 0; upload_files := sample_files;
  on_disk := sample_disk; upload_successful := false;
  final_upload_path := None; final_version := None; history := [] |}.

End SubmitSamples.

(** ** Sample working directories *)

Module ValidateSamples.
Import Validate.

(** One session log per lane, and the listed files and directories. *)
Definition directory (files dirs : list string) : filesystem := {|
  is_file := λ p, bool_decide (p ∈ files);
  is_dir := λ p, bool_decide (p ∈ dirs);
  path_exists := λ p, bool_decide (p ∈ files ++ dirs);
  glob_sessions := λ d,
    if bool_decide (d ∈ dirs) then ["session_aaa.jsonl"; "session_aaa_raw.jsonl"]
    else [] |}.

(** Neither [manifest.json] nor [model_a] is there. *)
Definition no_manifest_no_model_a : filesystem :=
  directory ["model_b/.claude/settings.local.json"]
            ["model_b"; "logs"; "logs/model_a"; "logs/model_b"; "snapshots"].

(** [model_a] and its settings file are not there. *)
Definition no_model_a : filesystem :=
  directory ["manifest.json"; "model_b/.claude/settings.local.json"]
            ["model_b"; "logs"; "logs/model_a"; "logs/model_b"; "snapshots"].

End ValidateSamples.

(** * Properties *)

(** ** The Metric Aggregator *)

Module AggregatorFacts.
Import Aggregator.
Local Open Scope Z_scope.

Lemma counter_val0 path s :
  counter path s = val0 (Py.get s "summary_data" (JObj ∅)) path ∨ path = [].
Proof.
  destruct path as [|k p]; [by right|left].
  unfold counter, val0, Py.get. cbn [lookup_path].
  destruct (s !! "summary_data") as [v|]; simpl; [done|].
  by rewrite lookup_empty.
Qed.

Lemma val0_cons m k k' p :
  val0 (JObj m) (k :: k' :: p) = val0 (Py.get m k (JObj ∅)) (k' :: p).
Proof.
  unfold val0, Py.get. cbn [lookup_path].
  destruct (m !! k) as [v|]; simpl; [done|].
  by rewrite lookup_empty.
Qed.

Lemma add_field_inv acc d k r :
  add_field acc d k = Some r →
  r = acc + val0 d [k] ∧
  ∀ acc', add_field acc' d k = Some (acc' + val0 d [k]).
Proof.
  unfold add_field, Py.get_attr, Py.add, Py.get, val0.
  destruct d as [| | | | |m]; simpl; try discriminate.
  intros Hr. cbn [lookup_path].
  destruct (m !! k) as [v|]; simpl in *.
  - destruct (Py.as_int v) as [n|]; simpl in *; [|discriminate].
    by injection Hr as <-.
  - by injection Hr as <-.
Qed.

Lemma max_field_inv acc d k r :
  max_field acc d k = Some r →
  r = Z.max acc (val0 d [k]) ∧
  ∀ acc', max_field acc' d k = Some (Z.max acc' (val0 d [k])).
Proof.
  unfold max_field, Py.get_attr, Py.max, Py.get, val0.
  destruct d as [| | | | |m]; simpl; try discriminate.
  intros Hr. cbn [lookup_path].
  assert (Hmax : ∀ a n, (if a <? n then n else a) = Z.max a n).
  { intros a n. destruct (Z.ltb_spec a n); lia. }
  destruct (m !! k) as [v|]; simpl in *.
  - destruct (Py.as_int v) as [n|]; simpl in *; [|discriminate].
    injection Hr as <-. split; [apply Hmax|].
    intros acc'. by rewrite Hmax.
  - injection Hr as <-. split; [apply Hmax|].
    intros acc'. by rewrite Hmax.
Qed.

(** The per-key loop over the items of a breakdown. *)
Lemma add_counts_lookup its : ∀ acc r,
  NoDup its.*1 →
  add_counts acc its = Some r →
  ∀ k, default 0 (r !! k)
       = default 0 (acc !! k)
         + default 0 ((list_to_map its : gmap string json) !! k ≫= Py.as_int).
Proof.
  induction its as [|[name count] rest IH]; intros acc r Hnd Hr k.
  - injection Hr as <-. cbn [list_to_map foldr]. rewrite lookup_empty. simpl. lia.
  - cbn [add_counts] in Hr. unfold Py.add in Hr.
    destruct (Py.as_int count) as [c|] eqn:Hc; simpl in Hr; [|discriminate].
    rewrite fmap_cons in Hnd. apply NoDup_cons in Hnd as [Hname Hnd].
    rewrite (IH _ _ Hnd Hr k). cbn [list_to_map foldr uncurry fst snd].
    destruct (decide (name = k)) as [->|Hne].
    + rewrite !lookup_insert_eq.
      rewrite (not_elem_of_list_to_map_1 _ _ Hname). simpl.
      rewrite Hc. simpl. lia.
    + by rewrite !lookup_insert_ne.
Qed.

Lemma add_counts_total its : ∀ acc r,
  add_counts acc its = Some r → ∀ acc', is_Some (add_counts acc' its).
Proof.
  induction its as [|[name count] rest IH]; intros acc r Hr acc'; [by eexists|].
  cbn [add_counts] in *. unfold Py.add in *.
  destruct (Py.as_int count) as [c|]; simpl in *; [|discriminate].
  eauto.
Qed.

Lemma add_mapping_inv acc d k r :
  add_mapping acc d k = Some r →
  (∀ key, default 0 (r !! key) = default 0 (acc !! key) + val0 d [k; key])
  ∧ ∀ acc', is_Some (add_mapping acc' d k).
Proof.
  unfold add_mapping, Py.get_attr, items.
  destruct d as [| | | | |m]; simpl; try discriminate.
  destruct (Py.get m k (JObj ∅)) as [| | | | |cm] eqn:Hget; simpl;
    try discriminate.
  intros Hr. split; [|by eapply add_counts_total].
  intros key.
  rewrite (add_counts_lookup _ _ _ (NoDup_fst_map_to_list cm) Hr key).
  rewrite list_to_map_to_list. f_equal.
  unfold val0. cbn [lookup_path]. unfold Py.get in Hget.
  destruct (m !! k) as [v|]; simpl in *.
  - subst v. by destruct (cm !! key).
  - injection Hget as <-. by rewrite lookup_empty.
Qed.

(** Peel the binds of a successful monadic chain. *)
Ltac peel H :=
  repeat match type of H with
         | (?x ≫= _) = Some _ =>
             let E := fresh "E" in
             destruct x eqn:E; cbn [mbind option_bind] in H; [|discriminate H]
         end.

Ltac use_field E :=
  let Hr := fresh "Hr" in
  let Hall := fresh "Hall" in
  first [ apply add_field_inv in E as [Hr Hall]
        | apply max_field_inv in E as [Hr Hall] ].

Lemma step_user_inv um t r :
  step_user um t = Some r →
  um_user_prompts r = um_user_prompts t + val0 um ["user_prompts"] ∧
  tool_results r = tool_results t + val0 um ["tool_results"] ∧
  system_messages r = system_messages t + val0 um ["system_messages"] ∧
  total_user_events r = total_user_events t + val0 um ["total_user_events"] ∧
  ∀ t', is_Some (step_user um t').
Proof.
  intros Hs. unfold step_user in Hs |- *. peel Hs. injection Hs as <-.
  use_field E; use_field E0; use_field E1; use_field E2. subst. cbn.
  repeat split; try done.
  intros t'. rewrite Hall, Hall0, Hall1, Hall2. by eexists.
Qed.

Lemma step_usage_inv ut t r :
  step_usage ut t = Some r →
  total_input_tokens r = total_input_tokens t + val0 ut ["total_input_tokens"] ∧
  total_output_tokens r
    = total_output_tokens t + val0 ut ["total_output_tokens"] ∧
  total_cache_creation_tokens r
    = total_cache_creation_tokens t + val0 ut ["total_cache_creation_tokens"] ∧
  total_cache_read_tokens r
    = total_cache_read_tokens t + val0 ut ["total_cache_read_tokens"] ∧
  total_ephemeral_5m_tokens r
    = total_ephemeral_5m_tokens t + val0 ut ["total_ephemeral_5m_tokens"] ∧
  total_ephemeral_1h_tokens r
    = total_ephemeral_1h_tokens t + val0 ut ["total_ephemeral_1h_tokens"] ∧
  total_actual_input_tokens r
    = total_actual_input_tokens t + val0 ut ["total_actual_input_tokens"] ∧
  ∀ t', is_Some (step_usage ut t').
Proof.
  intros Hs. unfold step_usage in Hs |- *. peel Hs. injection Hs as <-.
  use_field E; use_field E0; use_field E1; use_field E2; use_field E3;
    use_field E4; use_field E5. subst. cbn.
  repeat split; try done.
  intros t'. rewrite Hall, Hall0, Hall1, Hall2, Hall3, Hall4, Hall5.
  cbn. by eexists.
Qed.

Lemma step_tool_inv tm t r :
  step_tool tm t = Some r →
  total_tool_calls r = total_tool_calls t + val0 tm ["total_tool_calls"] ∧
  total_tool_results r = total_tool_results t + val0 tm ["total_tool_results"] ∧
  (∀ key, default 0 (tool_calls_by_type r !! key)
          = default 0 (tool_calls_by_type t !! key)
            + val0 tm ["tool_calls_by_type"; key]) ∧
  ∀ t', is_Some (step_tool tm t').
Proof.
  intros Hs. unfold step_tool in Hs |- *. peel Hs. injection Hs as <-.
  use_field E0; use_field E1.
  apply add_mapping_inv in E as [Hkey Htot]. subst. cbn.
  repeat split; try done.
  intros t'. destruct (Htot (tool_calls_by_type t')) as [x ->]. cbn.
  rewrite Hall, Hall0. by eexists.
Qed.

Lemma step_thinking_inv thm t r :
  step_thinking thm t = Some r →
  thinking_enabled_turns r
    = thinking_enabled_turns t + val0 thm ["thinking_enabled_turns"] ∧
  thinking_disabled_turns r
    = thinking_disabled_turns t + val0 thm ["thinking_disabled_turns"] ∧
  assistant_with_thinking_blocks r
    = assistant_with_thinking_blocks t
      + val0 thm ["assistant_with_thinking_blocks"] ∧
  assistant_thinking_blocks_captured r
    = assistant_thinking_blocks_captured t
      + val0 thm ["assistant_thinking_blocks_captured"] ∧
  (∀ key, default 0 (thinking_levels r !! key)
          = default 0 (thinking_levels t !! key)
            + val0 thm ["thinking_levels"; key]) ∧
  ∀ t', is_Some (step_thinking thm t').
Proof.
  intros Hs. unfold step_thinking in Hs |- *. peel Hs. injection Hs as <-.
  use_field E; use_field E0; use_field E1; use_field E2.
  apply add_mapping_inv in E3 as [Hkey Htot]. subst. cbn.
  repeat split; try done.
  intros t'. rewrite Hall, Hall0, Hall1, Hall2. cbn.
  destruct (Htot (thinking_levels t')) as [x ->]. by eexists.
Qed.

Lemma step_git_inv gm t r :
  step_git gm t = Some r →
  files_changed_count r
    = Z.max (files_changed_count t) (val0 gm ["files_changed_count"]) ∧
  lines_of_code_changed_count r
    = Z.max (lines_of_code_changed_count t)
            (val0 gm ["lines_of_code_changed_count"]) ∧
  ∀ t', is_Some (step_git gm t').
Proof.
  intros Hs. unfold step_git in Hs |- *. peel Hs. injection Hs as <-.
  use_field E; use_field E0. subst. cbn.
  repeat split; try done.
  intros t'. rewrite Hall, Hall0. by eexists.
Qed.

#[local] Arguments counter : simpl never.
#[local] Arguments val0 : simpl never.

Lemma counter_object s m k p :
  Py.get s "summary_data" (JObj ∅) = JObj m →
  counter (k :: p) s = val0 (JObj m) (k :: p).
Proof.
  intros <-. by destruct (counter_val0 (k :: p) s).
Qed.

(** One pass of the loop adds what the summary reports to every summed
    counter, merges the breakdowns key by key, and keeps the larger of
    the change counters; whether it raises does not depend on the
    totals so far. *)
Lemma step_inv t s t' :
  step t s = Some t' →
  Forall (λ '(proj, path), proj t' = proj t + counter path s) scalar_fields ∧
  Forall (λ '(proj, path), ∀ key,
            default 0 (proj t' !! key)
            = default 0 (proj t !! key) + counter (path ++ [key]) s)
         keyed_fields ∧
  Forall (λ '(proj, path), proj t' = Z.max (proj t) (counter path s))
         max_fields ∧
  ∀ t2, is_Some (step t2 s).
Proof.
  intros Hs. unfold step in Hs |- *.
  destruct (Py.get s "summary_data" (JObj ∅)) as [| | | | |m] eqn:Hsd;
    try discriminate Hs.
  peel Hs. injection Hs as <-.
  use_field E; use_field E0; use_field E1; use_field E2.
  cbn [Py.get_attr] in E3, E5, E7, E9, E11.
  injection E3 as <-; injection E5 as <-; injection E7 as <-;
    injection E9 as <-; injection E11 as <-.
  apply step_user_inv in E4 as (U1 & U2 & U3 & U4 & Utot).
  apply step_usage_inv in E6 as (A1 & A2 & A3 & A4 & A5 & A6 & A7 & Atot).
  apply step_tool_inv in E8 as (T1 & T2 & Tkey & Ttot).
  apply step_thinking_inv in E10 as (K1 & K2 & K3 & K4 & Kkey & Ktot).
  apply step_git_inv in E12 as (G1 & G2 & Gtot).
  pose proof (λ k p, counter_object s m k p Hsd) as Hcnt.
  repeat split.
  - repeat constructor; simpl; rewrite Hcnt, ?val0_cons; congruence.
  - repeat constructor; simpl; intros key; rewrite Hcnt, ?val0_cons; done.
  - repeat constructor; simpl; rewrite Hcnt, ?val0_cons; congruence.
  - intros t2. rewrite Hall, Hall0, Hall1, Hall2. cbn.
    destruct (Utot (user_metrics t2)) as [? ->].
    destruct (Atot (usage_totals t2)) as [? ->].
    destruct (Ttot (tool_metrics t2)) as [? ->].
    destruct (Ktot (thinking_metrics t2)) as [? ->].
    destruct (Gtot (git_metrics t2)) as [? ->]. cbn. by eexists.
Qed.

Lemma Zsum_cons {A} (f : A → Z) x l : Zsum f (x :: l) = f x + Zsum f l.
Proof. reflexivity. Qed.

Lemma Zmax0_cons {A} (f : A → Z) x l :
  Zmax0 f (x :: l) = Z.max (f x) (Zmax0 f l).
Proof. reflexivity. Qed.

Lemma Zmax0_nonneg {A} (f : A → Z) l : 0 ≤ Zmax0 f l.
Proof. induction l; [done|]. rewrite Zmax0_cons. lia. Qed.

Lemma Zmax0_bound {A} (f : A → Z) l x : x ∈ l → f x ≤ Zmax0 f l.
Proof.
  induction 1 as [x l|x y l _ IH]; cbn [Zmax0 foldr] in *;
    fold (Zmax0 f l) in *; lia.
Qed.

Lemma Zmax0_attained {A} (f : A → Z) l :
  Zmax0 f l = 0 ∨ ∃ x, x ∈ l ∧ Zmax0 f l = f x.
Proof.
  induction l as [|y l IH]; [by left|].
  cbn [Zmax0 foldr]. fold (Zmax0 f l).
  destruct (Z.max_spec (f y) (Zmax0 f l)) as [[_ ->]|[_ ->]].
  - destruct IH as [?|(x & ? & ?)]; [by left|right].
    exists x. split; [by constructor|done].
  - right. exists y. split; [constructor|done].
Qed.

Lemma loop_inv ss : ∀ t t',
  Forall (λ '(proj, _), 0 ≤ proj t) max_fields →
  loop t ss = Some t' →
  Forall (λ '(proj, path), proj t' = proj t + Zsum (counter path) ss)
         scalar_fields ∧
  Forall (λ '(proj, path), ∀ key,
            default 0 (proj t' !! key)
            = default 0 (proj t !! key) + Zsum (counter (path ++ [key])) ss)
         keyed_fields ∧
  Forall (λ '(proj, path), proj t' = Z.max (proj t) (Zmax0 (counter path) ss))
         max_fields.
Proof.
  induction ss as [|s ss IH]; intros t t' Hpos Hl.
  - injection Hl as <-. repeat split.
    + apply Forall_forall. intros [proj path] _. cbn. lia.
    + apply Forall_forall. intros [proj path] _ key. cbn. lia.
    + eapply Forall_impl; [exact Hpos|]. intros [proj path] ?. cbn. lia.
  - cbn [loop] in Hl. destruct (step t s) as [t1|] eqn:Hs; [|discriminate].
    cbn in Hl. apply step_inv in Hs as (S1 & S2 & S3 & _).
    assert (Hpos1 : Forall (λ '(proj, _), 0 ≤ proj t1) max_fields).
    { pose proof (conj Hpos S3) as HS. rewrite <- Forall_and in HS.
      eapply Forall_impl; [exact HS|]. intros [proj path] [? ->]. lia. }
    destruct (IH _ _ Hpos1 Hl) as (I1 & I2 & I3). repeat split.
    + pose proof (conj S1 I1) as HS. rewrite <- Forall_and in HS.
      eapply Forall_impl; [exact HS|]. intros [proj path] [E1 ->].
      rewrite E1, Zsum_cons. lia.
    + pose proof (conj S2 I2) as HS. rewrite <- Forall_and in HS.
      eapply Forall_impl; [exact HS|]. intros [proj path] [E1 E2] key.
      rewrite E2, E1, Zsum_cons. lia.
    + pose proof (conj S3 I3) as HS. rewrite <- Forall_and in HS.
      eapply Forall_impl; [exact HS|]. intros [proj path] [E1 ->].
      rewrite E1, Zmax0_cons. lia.
Qed.

Lemma loop_total ss : ∀ t,
  Forall (λ s, is_Some (aggregate_summaries [s])) ss → is_Some (loop t ss).
Proof.
  induction ss as [|s ss IH]; intros t Hall; [by eexists|].
  apply Forall_cons in Hall as [Hs Hall].
  unfold aggregate_summaries in Hs. cbn [loop] in *.
  destruct (step totals0 s) as [t0|] eqn:H0;
    [|by destruct Hs as [? Hs]; cbn in Hs].
  apply step_inv in H0 as (_ & _ & _ & Htot).
  destruct (Htot t) as [t1 ->]. cbn. by apply IH.
Qed.



End AggregatorFacts.

(** ** The sort *)

Module PySortFacts.
Import PySort.

Section sort.
Context {A : Type} (key : A → datetime).

Abbreviation insert := (PySort.insert key Datetime.lt).
Abbreviation sort := (PySort.sort key Datetime.lt).
Abbreviation key_le := (PySort.key_le key).
Abbreviation comparable := (PySort.comparable key).
Abbreviation with_key := (PySort.with_key key).

Lemma insert_perm x l r : insert x l = Some r → r ≡ₚ x :: l.
Proof.
  revert r. induction l as [|y l IH]; intros r Hr; cbn in Hr.
  - by injection Hr as <-.
  - destruct (Datetime.lt (key y) (key x)) as [[]|]; cbn in Hr;
      [|by injection Hr as <-|done].
    destruct (insert x l) as [r'|]; [|done]. injection Hr as <-.
    rewrite (IH r' eq_refl). apply Permutation_swap.
Qed.

Lemma sort_perm l r : sort l = Some r → r ≡ₚ l.
Proof.
  revert r. induction l as [|x l IH]; intros r Hr; cbn in Hr.
  - by injection Hr as <-.
  - destruct (sort l) as [s|]; [|done]. cbn in Hr.
    rewrite (insert_perm _ _ _ Hr). by rewrite (IH s eq_refl).
Qed.

Lemma lt_true a b :
  Datetime.lt a b = Some true → (dt_ticks a < dt_ticks b)%Z.
Proof.
  unfold Datetime.lt. destruct (Bool.eqb _ _); [|done].
  intros [= Hlt]. by apply Z.ltb_lt.
Qed.

Lemma lt_false a b :
  Datetime.lt a b = Some false →
  (dt_ticks b ≤ dt_ticks a)%Z ∧ dt_aware a = dt_aware b.
Proof.
  unfold Datetime.lt. destruct (Bool.eqb _ _) eqn:Heq; [|done].
  intros [= Hlt]. apply Bool.eqb_prop in Heq. apply Z.ltb_ge in Hlt. done.
Qed.

Lemma lt_same_kind a b :
  dt_aware a = dt_aware b →
  Datetime.lt a b = Some (dt_ticks a <? dt_ticks b)%Z.
Proof. unfold Datetime.lt. intros ->. by rewrite Bool.eqb_reflx. Qed.

Lemma insert_sorted x l r :
  StronglySorted key_le l → insert x l = Some r → StronglySorted key_le r.
Proof.
  revert r. induction l as [|y l IH]; intros r Hs Hr; cbn in Hr.
  - injection Hr as <-. by repeat constructor.
  - apply StronglySorted_inv in Hs as [Hs Hy].
    destruct (Datetime.lt (key y) (key x)) as [[]|] eqn:Hlt; cbn in Hr;
      [| |done].
    + destruct (insert x l) as [r'|] eqn:Hi; [|done]. injection Hr as <-.
      constructor; [by apply IH|].
      rewrite (insert_perm _ _ _ Hi). constructor; [|done].
      apply lt_true in Hlt. unfold key_le. lia.
    + injection Hr as <-. apply lt_false in Hlt as [Hle _].
      constructor; [by constructor|]. constructor; [done|].
      eapply Forall_impl; [exact Hy|]. unfold key_le. intros; lia.
Qed.

Lemma sort_sorted l r : sort l = Some r → StronglySorted key_le r.
Proof.
  revert r. induction l as [|x l IH]; intros r Hr; cbn in Hr.
  - injection Hr as <-. constructor.
  - destruct (sort l) as [s|]; [|done]. cbn in Hr.
    eapply insert_sorted; [|exact Hr]. by apply IH.
Qed.

Lemma insert_stable d x l r :
  insert x l = Some r → with_key d r = with_key d (x :: l).
Proof.
  unfold with_key.
  revert r. induction l as [|y l IH]; intros r Hr; cbn in Hr.
  - by injection Hr as <-.
  - destruct (Datetime.lt (key y) (key x)) as [[]|] eqn:Hlt; cbn in Hr;
      [|by injection Hr as <-|done].
    destruct (insert x l) as [r'|] eqn:Hi; [|done]. injection Hr as <-.
    apply lt_true in Hlt.
    rewrite (filter_cons _ y r'), (IH r' eq_refl).
    rewrite !filter_cons.
    destruct (decide (key y = d)) as [Hy|Hy];
      destruct (decide (key x = d)) as [Hx|Hx]; try done.
    rewrite Hy, Hx in Hlt. lia.
Qed.

Lemma sort_stable d l r : sort l = Some r → with_key d r = with_key d l.
Proof.
  revert r. induction l as [|x l IH]; intros r Hr; cbn in Hr.
  - by injection Hr as <-.
  - destruct (sort l) as [s|]; [|done]. cbn in Hr.
    rewrite (insert_stable _ _ _ _ Hr). unfold with_key in *.
    by rewrite !filter_cons, (IH s eq_refl).
Qed.

Lemma insert_total w x l :
  dt_aware (key x) = w → Forall (λ a, dt_aware (key a) = w) l →
  is_Some (insert x l).
Proof.
  intros Hx. induction 1 as [|y l Hy Hl IH]; [by eexists|].
  destruct IH as [r' Hr']. cbn [PySort.insert].
  rewrite lt_same_kind by congruence.
  destruct (_ <? _)%Z; cbn [mbind option_bind]; [rewrite Hr'|];
    by eexists.
Qed.

(** The sort returns whenever the keys are all of one kind. *)
Lemma sort_total l : comparable l → is_Some (sort l).
Proof.
  intros [w Hall]. induction Hall as [|x l Hx Hl IH]; [by eexists|].
  destruct IH as [s Hs]. cbn [PySort.sort]. rewrite Hs.
  cbn [mbind option_bind].
  apply (insert_total w); [done|].
  by rewrite (sort_perm _ _ Hs).
Qed.

(** And only then, when there is something to compare. *)
Lemma insert_comparable x l r :
  insert x l = Some r → comparable l → comparable (x :: l).
Proof.
  destruct l as [|y l]; cbn.
  - intros _ _. exists (dt_aware (key x)). by repeat constructor.
  - unfold Datetime.lt.
    destruct (Bool.eqb _ _) eqn:Heq; [|done]. apply Bool.eqb_prop in Heq.
    intros _ [w Hall]. exists w. constructor; [|done].
    apply Forall_cons in Hall as [<- _]. done.
Qed.

Lemma sort_comparable l r : sort l = Some r → comparable l.
Proof.
  revert r. induction l as [|x l IH]; intros r Hr; cbn in Hr.
  - exists true. constructor.
  - destruct (sort l) as [s|] eqn:Hs; [|done]. cbn in Hr.
    pose proof (insert_comparable _ _ _ Hr) as Hc.
    assert (Hcs : comparable s).
    { destruct (IH s eq_refl) as [w Hw]. exists w.
      by rewrite (sort_perm _ _ Hs). }
    destruct (Hc Hcs) as [w Hw]. exists w.
    apply Forall_cons in Hw as [Hx Hw]. constructor; [done|].
    by rewrite <- (sort_perm _ _ Hs).
Qed.
End sort.
End PySortFacts.

(** ** The Merge Orchestrator *)

Module MergeFacts.
Import Merge PySort.

Section with_runtime.
Context `{Runtime}.

Lemma copy_ab_metadata_other first_start target k :
  k ∉ ab_keys → copy_ab_metadata first_start target !! k = target !! k.
Proof.
  unfold copy_ab_metadata. generalize ab_keys. intros keys. revert target.
  induction keys as [|key keys IH]; intros target Hk; [done|].
  apply not_elem_of_cons in Hk as [Hne Hk]. cbn [foldl].
  rewrite IH by done.
  destruct (first_start !! key) as [v|]; [|done].
  destruct (Py.truthy v); [|done]. by rewrite lookup_insert_ne.
Qed.

(** What a successful merge went through. *)
Lemma merge_sessions_inv dir out :
  merge_sessions dir = Some (Merged out) →
  ∃ files sessions first_session last_session ids aggregated,
    find_session_files dir = Some files ∧
    (2 ≤ length files)%nat ∧
    mapM (λ pf, extract_session_data (read_session_events pf)) files
      = Some sessions ∧
    head sessions = Some first_session ∧
    last sessions = Some last_session ∧
    original_ids sessions = Some ids ∧
    Aggregator.aggregate_summaries (omap session_summary sessions)
      = Some aggregated ∧
    PySort.sort message_key Datetime.lt (collect_messages uuid4 sessions)
      = Some (all_messages out) ∧
    merged_end out
      = build_merged_end uuid4 (length files)
          (default ∅ (session_start first_session))
          (default ∅ (session_end last_session)).
Proof.
  unfold merge_sessions. intros Hm.
  destruct (find_session_files dir) as [files|] eqn:Hf; [|done].
  cbn [mbind option_bind] in Hm.
  destruct (length files <? 2)%nat eqn:Hlen; [done|].
  apply Nat.ltb_ge in Hlen.
  destruct (mapM _ files) as [sessions|] eqn:Hs; [|done].
  cbn [mbind option_bind] in Hm.
  destruct (head sessions) as [first_session|] eqn:Hhd; [|done].
  cbn [mbind option_bind] in Hm.
  destruct (last sessions) as [last_session|] eqn:Hlast; [|done].
  cbn [mbind option_bind] in Hm.
  destruct (original_ids sessions) as [ids|] eqn:Hids; [|done].
  cbn [mbind option_bind] in Hm.
  destruct (PySort.sort _ _ _) as [msgs|] eqn:Hsort; [|done].
  cbn [mbind option_bind] in Hm.
  destruct (Aggregator.aggregate_summaries _) as [aggregated|] eqn:Hagg;
    [|done].
  cbn [mbind option_bind] in Hm.
  injection Hm as <-.
  exists files, sessions, first_session, last_session, ids, aggregated.
  done.
Qed.

(** The merge returns a merged log as soon as each of its steps does. *)
Lemma merge_sessions_total dir files sessions :
  find_session_files dir = Some files →
  (2 ≤ length files)%nat →
  mapM (λ pf, extract_session_data (read_session_events pf)) files
    = Some sessions →
  is_Some (original_ids sessions) →
  is_Some (Aggregator.aggregate_summaries (omap session_summary sessions)) →
  comparable message_key (collect_messages uuid4 sessions) →
  ∃ out, merge_sessions dir = Some (Merged out).
Proof.
  intros Hf Hlen Hs [ids Hids] [agg Hagg] Hcmp.
  apply PySortFacts.sort_total in Hcmp as [msgs Hmsgs].
  unfold merge_sessions. rewrite Hf. cbn [mbind option_bind].
  apply Nat.ltb_ge in Hlen as Hlen'. rewrite Hlen'.
  rewrite Hs. cbn [mbind option_bind].
  assert (Hlen2 : length sessions = length files).
  { symmetry. by apply length_mapM in Hs. }
  destruct sessions as [|s0 sessions]; [cbn in Hlen2; lia|].
  cbn [head mbind option_bind].
  destruct (last (s0 :: sessions)) as [l|] eqn:Hlast;
    [|by apply last_None in Hlast].
  cbn [mbind option_bind]. rewrite Hids. cbn [mbind option_bind].
  rewrite Hmsgs. cbn [mbind option_bind].
  rewrite Hagg. cbn [mbind option_bind]. by eexists.
Qed.


Lemma Forall2_last {A B} (P : A → B → Prop) l k x y :
  Forall2 P l k → last l = Some x → last k = Some y → P x y.
Proof.
  induction 1 as [|a b l k Hab Hlk IH]; [done|].
  destruct Hlk as [|a' b' l k Hab' Hlk]; cbn.
  - by intros [= <-] [= <-].
  - intros Hx Hy. by apply IH.
Qed.

(** C6 (amended). End record of the merged log: its timestamp is the
    timestamp of the end record of the last session in merge order,
    that is of the file that sorts last by the timestamp of its start
    record, and the current time when that session has no end record or
    its end record has no timestamp. *)
Theorem merged_end_timestamp_of_last_session dir out :
  merge_sessions dir = Some (Merged out) →
  ∃ files last_file last_session,
    find_session_files dir = Some files ∧
    (2 ≤ length files)%nat ∧
    last files = Some last_file ∧
    extract_session_data (read_session_events last_file)
      = Some last_session ∧
    merged_end out !! "timestamp"
      = Some (match session_end last_session with
              | Some e => Py.get e "timestamp" (JStr (utcnow 2))
              | None => JStr (utcnow 2)
              end).
Proof.
  intros Hm.
  apply merge_sessions_inv in Hm
    as (files & sessions & first & last_session & _ & _ & Hf & Hlen & Hs
        & _ & Hlast & _ & _ & _ & Hend).
  destruct (last files) as [last_file|] eqn:Hlf.
  2: { apply last_None in Hlf. subst files. cbn in Hlen. lia. }
  exists files, last_file, last_session. repeat split; try done.
  - apply mapM_Some_1 in Hs.
    by apply (Forall2_last _ _ _ _ _ Hs Hlf Hlast).
  - rewrite Hend. unfold build_merged_end.
    assert (Hk : "timestamp" ∉ ab_keys)
      by (apply (bool_decide_unpack _); by vm_compute).
    rewrite copy_ab_metadata_other by done.
    cbn [list_to_map foldr uncurry fst snd].
    rewrite lookup_insert_ne by done. rewrite lookup_insert_eq.
    destruct (session_end last_session) as [e|]; [done|].
    cbn. unfold Py.get. by rewrite lookup_empty.
Qed.

Lemma classify_messages data e msg :
  msg ∈ messages (classify data e) → msg ∈ messages data ∨ msg = e.
Proof.
  intros Hin. unfold classify in Hin.
  destruct (has_type e "session_start"); [by left|].
  destruct (has_type e "session_end"); [by left|].
  destruct (has_type e "session_summary"); [by left|].
  destruct (_ || _); [|by left].
  cbn in Hin. apply elem_of_app in Hin as [?|Hin]; [by left|].
  right. by apply list_elem_of_singleton in Hin.
Qed.

Lemma extract_from_messages evs : ∀ data s msg,
  extract_from data evs = Some s →
  msg ∈ messages s → msg ∈ messages data ∨ JObj msg ∈ evs.
Proof.
  induction evs as [|ev evs IH]; intros data s msg Hs Hin; cbn in Hs.
  - injection Hs as <-. by left.
  - destruct ev as [| | | | |e]; try done.
    destruct (IH _ _ _ Hs Hin) as [Hc|Hc].
    + apply classify_messages in Hc as [?| ->]; [by left|].
      right. constructor.
    + right. by constructor.
Qed.

Lemma retag_session_id merged_session_id msg :
  retag merged_session_id msg !! "session_id"
  = Some (JStr merged_session_id).
Proof.
  unfold retag. rewrite lookup_insert_ne by done. apply lookup_insert_eq.
Qed.

Lemma retag_original_session_id merged_session_id msg :
  retag merged_session_id msg !! "original_session_id"
  = Some (Py.get msg "session_id" (JStr "unknown")).
Proof. unfold retag. apply lookup_insert_eq. Qed.

Lemma collect_messages_elem m sessions :
  m ∈ collect_messages uuid4 sessions →
  ∃ s msg, s ∈ sessions ∧ msg ∈ messages s ∧ m = retag uuid4 msg.
Proof.
  unfold collect_messages. rewrite list_elem_of_In, in_concat.
  intros (l & Hl & Hm).
  apply in_map_iff in Hl as (s & <- & Hs).
  apply in_map_iff in Hm as (msg & <- & Hmsg).
  exists s, msg. by rewrite !list_elem_of_In.
Qed.

(** C7 (amended). Identifiers of the merged messages: every message of
    the merged log is the copy of a message line of one of the files,
    its [session_id] is the new merged id, and its
    [original_session_id] is the [session_id] field that the message
    had in its file, or ["unknown"] when it had none. *)
Theorem merged_messages_retagged dir out :
  merge_sessions dir = Some (Merged out) →
  ∃ files,
    find_session_files dir = Some files ∧
    ∀ m, m ∈ all_messages out →
      m !! "session_id" = Some (JStr uuid4) ∧
      ∃ f msg,
        f ∈ files ∧ Some (JObj msg) ∈ lines f ∧ m = retag uuid4 msg ∧
        m !! "original_session_id"
        = Some (default (JStr "unknown") (msg !! "session_id")).
Proof.
  intros Hm.
  apply merge_sessions_inv in Hm
    as (files & sessions & _ & _ & _ & _ & Hf & _ & Hs & _ & _ & _ & _
        & Hsort & _).
  exists files. split; [done|]. intros m Hin.
  rewrite (PySortFacts.sort_perm _ _ _ Hsort) in Hin.
  apply collect_messages_elem in Hin as (s & msg & Hsin & Hmsg & ->).
  split; [apply retag_session_id|].
  apply mapM_Some_1 in Hs.
  apply list_elem_of_lookup in Hsin as [i Hi].
  destruct (Forall2_lookup_r _ _ _ _ _ Hs Hi) as (f & Hfi & Hex).
  exists f, msg. split; [by eapply list_elem_of_lookup_2|].
  split; [|split; [done|apply retag_original_session_id]].
  unfold extract_session_data in Hex.
  destruct (extract_from_messages _ _ _ _ Hex Hmsg) as [Hc|Hc].
  - cbn in Hc. by apply elem_of_nil in Hc.
  - unfold read_session_events in Hc.
    apply list_elem_of_omap in Hc as (o & Ho & Hid). cbn in Hid.
    by subst o.
Qed.
End with_runtime.
End MergeFacts.

(** ** The merge on the sample directories *)

Module MergeExamples.
Import Merge PySort Samples SampleRuntime.

#[local] Existing Instance sample_runtime.


(** C6, counterexample.  Session [aaa] runs from 10:00 to 12:00 and
    session [bbb] from 11:00 to 11:30.  The merge orders them by their
    start, takes the end record of [bbb], and the merged log ends at
    11:30, although the end record of [aaa] is later. *)
Lemma merged_end_not_latest_end :
  ∃ out, merge_sessions two_sessions = Some (Merged out) ∧
         merged_end out !! "timestamp" = Some (JStr "2024-03-01T11:30:00Z") ∧
         ¬ is_latest_end (JStr "2024-03-01T11:30:00Z")
             [classified session_a; classified session_b].
Proof.
  assert (Hts : match merge_sessions two_sessions with
                | Some (Merged out) => merged_end out !! "timestamp"
                | _ => None
                end = Some (JStr "2024-03-01T11:30:00Z"))
    by (vm_compute; reflexivity).
  revert Hts.
  destruct (merge_sessions two_sessions) as [[|out]|]; [done| |done].
  intros Hts. exists out. split; [reflexivity|]. split; [exact Hts|].
  intros [_ Hlatest].
  apply (Hlatest (classified session_a)
           (default ∅ (session_end (classified session_a)))
           (JStr "2024-03-01T12:00:00Z")).
  - constructor.
  - vm_compute; reflexivity.
  - vm_compute; reflexivity.
  - vm_compute; reflexivity.
Qed.

(** The end record of the merge of the two sample sessions. *)
Lemma merged_end_timestamp_of_last_session_witness :
  ∃ out, merge_sessions two_sessions = Some (Merged out) ∧
         merged_end out !! "timestamp" = Some (JStr "2024-03-01T11:30:00Z").
Proof.
  assert (Hsome : match merge_sessions two_sessions with
                  | Some (Merged _) => true
                  | _ => false
                  end = true) by (vm_compute; reflexivity).
  assert (Hfiles : find_session_files two_sessions
                   = Some [session_a; session_b]) by (vm_compute; reflexivity).
  assert (Hb : extract_session_data (read_session_events session_b)
               = Some (classified session_b)) by (vm_compute; reflexivity).
  revert Hsome.
  destruct (merge_sessions two_sessions) as [[|out]|] eqn:Hm; [done| |done].
  intros _.
  exists out. split; [reflexivity|].
  destruct (MergeFacts.merged_end_timestamp_of_last_session two_sessions out Hm)
    as (files & last_file & last_session & Hf & _ & Hl & Hx & Hts).
  rewrite Hfiles in Hf. injection Hf as <-.
  cbn [last] in Hl. injection Hl as <-.
  rewrite Hb in Hx. injection Hx as <-.
  rewrite Hts. vm_compute; reflexivity.
Defined.

(** C7, counterexample.  The user message of [session_ccc.jsonl] has no
    [session_id] field: its copy in the merged log carries
    [original_session_id = "unknown"], which is the session id of neither
    file. *)
Lemma untagged_message_not_traceable :
  ∃ out, merge_sessions untagged_sessions = Some (Merged out) ∧
         ¬ traceable untagged_sessions out.
Proof.
  pose (m0 := retag uuid4
                (list_to_map [("type", JStr "user");
                              ("timestamp", JStr "2024-03-01T09:05:00Z")])).
  assert (Hhead : match merge_sessions untagged_sessions with
                  | Some (Merged out) => head (all_messages out)
                  | _ => None
                  end = Some m0) by (vm_compute; reflexivity).
  assert (Horig0 : m0 !! "original_session_id" = Some (JStr "unknown"))
    by (vm_compute; reflexivity).
  revert Hhead.
  destruct (merge_sessions untagged_sessions) as [[|out]|]; [done| |done].
  intros Hhead. exists out. split; [reflexivity|].
  intros Htr.
  assert (Hin : m0 ∈ all_messages out).
  { destruct (all_messages out) as [|m l]; [done|].
    cbn in Hhead. injection Hhead as ->. by left. }
  destruct (Htr _ Hin) as (_ & f & Hf & _ & Horig).
  rewrite Horig0 in Horig. injection Horig as Horig.
  unfold untagged_sessions in Hf.
  apply elem_of_cons in Hf as [->|Hf];
    [|apply list_elem_of_singleton in Hf as ->];
    vm_compute in Horig; discriminate Horig.
Qed.

(** The messages of the merge of the two sample sessions. *)
Lemma merged_messages_retagged_witness :
  ∃ out, merge_sessions two_sessions = Some (Merged out) ∧
         ∀ m, m ∈ all_messages out → m !! "session_id" = Some (JStr uuid4).
Proof.
  assert (Hsome : match merge_sessions two_sessions with
                  | Some (Merged _) => true
                  | _ => false
                  end = true) by (vm_compute; reflexivity).
  revert Hsome.
  destruct (merge_sessions two_sessions) as [[|out]|] eqn:Hm; [done| |done].
  intros _.
  exists out. split; [reflexivity|]. intros m Hin.
  destruct (MergeFacts.merged_messages_retagged two_sessions out Hm)
    as (files & _ & Hall).
  by destruct (Hall m Hin) as [Hsid _].
Defined.
End MergeExamples.

(** ** The Version Ledger *)

Module LedgerFacts.
Import Submit.
Local Open Scope Z_scope.

(** C8. Next version and remote path: the first attempt uses version 0
    when the manifest records no last version, and the recorded version
    plus one when it records one (4 gives 5); the remote path is
    [folder/taskId] for version 0 and [folder/taskId_v{version}] for a
    version of at least 1. *)
Theorem next_version_and_upload_path :
  (∀ manifest, manifest !! "last_submission_version" = None →
               starting_version manifest = Some 0) ∧
  (∀ manifest last_version,
     manifest !! "last_submission_version" = Some (JNum last_version) →
     starting_version manifest = Some (last_version + 1)) ∧
  starting_version {[ "last_submission_version" := JNum 4 ]} = Some 5 ∧
  (∀ sprint_folder task_id,
     get_upload_path_from_version sprint_folder task_id 0
     = sprint_folder +:+ "/" +:+ task_id) ∧
  (∀ sprint_folder task_id version, 1 ≤ version →
     get_upload_path_from_version sprint_folder task_id version
     = sprint_folder +:+ "/" +:+ task_id +:+ "_v" +:+ PyStr.of_Z version) ∧
  get_upload_path_from_version "sprint1" "task42" 3 = "sprint1/task42_v3".
Proof.
  repeat split.
  - intros manifest Hnone. unfold starting_version, Py.get.
    by rewrite Hnone.
  - intros manifest n Hn. unfold starting_version, Py.get.
    by rewrite Hn.
  - intros sprint_folder task_id version Hv.
    unfold get_upload_path_from_version.
    destruct (Z.eqb_spec version 0); [lia|done].
Qed.

Lemma next_version_and_upload_path_witness :
  starting_version (<["last_submission_version" := JNum 7]>
                      SubmitSamples.sample_manifest) = Some 8 ∧
  get_upload_path_from_version "sprint1" "task42" 12 = "sprint1/task42_v12".
Proof.
  destruct next_version_and_upload_path as (_ & Hnext & _ & _ & Hpath & _).
  split.
  - apply (Hnext _ 7). apply lookup_insert_eq.
  - apply (Hpath "sprint1" "task42" 12). lia.
Defined.

(** C10. Persisting a version: the update changes the
    [last_submission_version] field of the manifest and nothing else, on
    disk and in the manifest, and a second update with the same version
    changes nothing. *)
Theorem update_manifest_version_frame_idempotent d new_version :
  let d1 := (update_manifest_version d new_version).2 in
  (∀ manifest, manifest_json d = Some (JObj manifest) →
     ∃ manifest',
       manifest_json d1 = Some (JObj manifest') ∧
       manifest' !! "last_submission_version" = Some (JNum new_version) ∧
       ∀ k, k ≠ "last_submission_version" → manifest' !! k = manifest !! k) ∧
  log_paths d1 = log_paths d ∧ snapshots_zip d1 = snapshots_zip d ∧
  claude_files d1 = claude_files d ∧
  update_manifest_version d1 new_version
  = ((update_manifest_version d new_version).1, d1).
Proof.
  unfold update_manifest_version.
  destruct (manifest_json d) as [[| | | | |manifest]|] eqn:Hm; cbn;
    rewrite ?Hm; repeat split; try done.
  - intros ? [= <-]. eexists. split; [done|].
    split; [apply lookup_insert_eq|].
    intros k Hk. by rewrite lookup_insert_ne.
  - unfold write_manifest. cbn. by rewrite insert_insert_eq.
Qed.

Lemma update_manifest_version_frame_idempotent_witness :
  ∃ manifest',
    manifest_json (update_manifest_version SubmitSamples.sample_disk 2).2
    = Some (JObj manifest') ∧
    manifest' !! "last_submission_version" = Some (JNum 2) ∧
    ∀ k, k ≠ "last_submission_version" →
         manifest' !! k = SubmitSamples.sample_manifest !! k.
Proof.
  destruct (update_manifest_version_frame_idempotent
              SubmitSamples.sample_disk 2) as (Hframe & _).
  apply (Hframe SubmitSamples.sample_manifest). reflexivity.
Defined.
End LedgerFacts.

(** ** The Upload Scheduler *)

Module SchedulerFacts.
Import Submit.
Local Open Scope Z_scope.

Section with_storage.
Context `{Storage}.

Lemma filter_nil_all {A} (P : A → Prop) `{∀ x, Decision (P x)} (l : list A) :
  (∀ x, x ∈ l → ¬ P x) → filter P l = [].
Proof.
  induction l as [|x l IH]; intros Hall; [done|].
  rewrite filter_cons, decide_False by (apply Hall; by left).
  apply IH. intros y Hy. apply Hall. by right.
Qed.

Lemma record_result_codes task_id t f c :
  c ∈ conflict_error_codes (record_result task_id t f) ↔
  c ∈ conflict_error_codes t ∨
  (c ∈ ["403"; "409"] ∧ task_result task_id f = (false, Some c)).
Proof.
  unfold record_result.
  destruct (task_result task_id f) as [[] code]; cbn.
  - split; [by left|]. intros [?|[_ ?]]; [done|discriminate].
  - destruct code as [c'|]; [case_bool_decide as Hc'|].
    + rewrite elem_of_union, elem_of_singleton. split.
      * intros [->|?]; [by right|by left].
      * intros [?|[_ [= ->]]]; [by right|by left].
    + split; [by left|]. intros [?|[Hc [= ->]]]; [done|contradiction].
    + split; [by left|]. intros [?|[_ ?]]; [done|discriminate].
Qed.

(** The tally after the results of [files] are recorded. *)
Lemma tally_spec task_id files : ∀ t,
  let t' := foldl (record_result task_id) t files in
  uploaded_count t'
  = (uploaded_count t
     + length (filter (λ f, (task_result task_id f).1 = true) files))%nat ∧
  failed_files t'
  = failed_files t
    ++ filter (λ f, (task_result task_id f).1 = false) files ∧
  ∀ c, c ∈ conflict_error_codes t' ↔
       c ∈ conflict_error_codes t ∨
       (c ∈ ["403"; "409"] ∧
        ∃ f, f ∈ files ∧ task_result task_id f = (false, Some c)).
Proof.
  induction files as [|f files IH]; intros t; cbn zeta.
  - cbn. rewrite app_nil_r. repeat split; try lia; try tauto.
    intros [?|(_ & f & Hf & _)]; [done|]. by apply elem_of_nil in Hf.
  - cbn [foldl]. destruct (IH (record_result task_id t f)) as (I1 & I2 & I3).
    rewrite I1, I2. rewrite !filter_cons. unfold record_result at 1 2.
    split; [|split].
    + destruct (task_result task_id f) as [[] code]; cbn;
        repeat case_decide; try done; cbn; lia.
    + destruct (task_result task_id f) as [[] code]; cbn;
        repeat case_decide; try done; cbn; by rewrite <- ?app_assoc.
    + intros c. rewrite I3, record_result_codes. split.
      * intros [[?|[? ?]]|(? & f0 & ? & ?)].
        -- by left.
        -- right. split; [done|]. exists f. split; [by left|done].
        -- right. split; [done|]. exists f0. split; [by right|done].
      * intros [?|(Hc & f0 & Hf0 & Hr)]; [by left; left|].
        apply elem_of_cons in Hf0 as [->|Hf0].
        -- left. by right.
        -- right. split; [done|]. by exists f0.
Qed.

(** The three results of [upload_experiment_data]. *)
Lemma upload_experiment_data_spec task_id user_folder files manifest :
  ∃ success had_conflict_errors n,
    upload_experiment_data task_id user_folder files manifest
    = (success, had_conflict_errors, n) ∧
    (success = true ↔ ∀ f, f ∈ files → (task_result task_id f).1 = true) ∧
    (had_conflict_errors = true ↔
       ∃ f c, f ∈ files ∧ c ∈ ["403"; "409"] ∧
              task_result task_id f = (false, Some c)) ∧
    n = length (filter (λ f, (task_result task_id f).1 = true) files).
Proof.
  unfold upload_experiment_data.
  destruct (tally_spec task_id files tally0) as (T1 & T2 & T3).
  cbn zeta in *. eexists _, _, _. split; [done|].
  split; [|split].
  - rewrite bool_decide_eq_true, T2. cbn [failed_files tally0 app].
    rewrite length_zero_iff_nil. split.
    + intros Hnil f Hf.
      destruct (task_result task_id f).1 eqn:Hr; [done|].
      assert (Hin : f ∈ filter (λ f, (task_result task_id f).1 = false)
                          files) by (by apply list_elem_of_filter).
      rewrite Hnil in Hin. by apply elem_of_nil in Hin.
    + intros Hall. apply filter_nil_all. intros f Hf.
      rewrite (Hall f Hf). done.
  - rewrite bool_decide_eq_true. split.
    + intros Hpos. apply size_pos_elem_of in Hpos as [c Hc].
      apply T3 in Hc as [Hc|(Hc & f & Hf & Hr)];
        [by apply not_elem_of_empty in Hc|].
      by exists f, c.
    + intros (f & c & Hf & Hc & Hr).
      assert (Hin : c ∈ conflict_error_codes
                      (foldl (record_result task_id) tally0 files)).
      { apply T3. right. split; [done|]. by exists f. }
      destruct (decide (size (conflict_error_codes
                  (foldl (record_result task_id) tally0 files)) = 0%nat))
        as [Hz|Hz]; [|lia].
      apply size_empty_iff in Hz.
      exfalso. by apply (proj1 (elem_of_equiv_empty _) Hz c).
  - rewrite T1. done.
Qed.

(** One pass of the attempt loop, by the results of its uploads. *)
Lemma attempt_body_spec sprint_folder task_id manifest attempt st :
  let upload_path :=
    get_upload_path_from_version sprint_folder task_id (attempt_version st) in
  ∀ success had_conflict_errors n,
    upload_experiment_data upload_path upload_path (upload_files st) manifest
    = (success, had_conflict_errors, n) →
    let d := if (0 <? n)%nat
             then (update_manifest_version (on_disk st) (attempt_version st)).2
             else on_disk st in
    ∃ c st',
      attempt_body sprint_folder task_id manifest attempt st = (c, st') ∧
      on_disk st' = d ∧
      history st'
      = history st ++ [{| ar_attempt := attempt;
                          ar_version := attempt_version st;
                          ar_upload_path := upload_path;
                          ar_success := success;
                          ar_had_conflict_errors := had_conflict_errors;
                          ar_uploaded_count := n;
                          ar_manifest := manifest_json d |}] ∧
      final_version st'
      = (if (0 <? n)%nat then Some (attempt_version st)
         else final_version st) ∧
      (success = true →
         c = Break ∧ upload_successful st' = true ∧
         final_upload_path st' = Some upload_path) ∧
      (success = false → had_conflict_errors = true →
       (attempt < max_attempts - 1)%nat →
         c = Next ∧ attempt_version st' = attempt_version st + 1 ∧
         upload_files st' = get_file_list_for_upload d ∧
         upload_successful st' = upload_successful st ∧
         final_upload_path st' = final_upload_path st) ∧
      (success = false → had_conflict_errors = true →
       ¬ (attempt < max_attempts - 1)%nat →
         c = Exit "Upload failed: Files already exist and max attempts (5) reached"
         ∧ upload_successful st' = upload_successful st) ∧
      (success = false → had_conflict_errors = false →
         c = Exit "Upload failed with non-conflict errors"
         ∧ upload_successful st' = upload_successful st).
Proof.
  intros upload_path success had_conflict_errors n Hup d.
  unfold attempt_body. fold upload_path. rewrite Hup. fold d.
  destruct success.
  { eexists _, _. split; [done|]. cbn. repeat split; done. }
  destruct had_conflict_errors; cbn [andb].
  - destruct (attempt <? max_attempts - 1)%nat eqn:Hlt.
    + apply Nat.ltb_lt in Hlt.
      eexists _, _. split; [done|]. cbn [on_disk history final_version].
      split; [done|]. split; [done|]. split; [done|].
      split; [done|]. split; [by intros _ _ _|].
      split; [by intros _ _ Hge|done].
    + apply Nat.ltb_ge in Hlt.
      eexists _, _. split; [done|]. cbn [on_disk history final_version].
      split; [done|]. split; [done|]. split; [done|].
      split; [done|]. split; [intros _ _ Hlt'; lia|].
      split; [by intros _ _ _|done].
  - eexists _, _. split; [done|]. cbn [on_disk history final_version].
    split; [done|]. split; [done|]. split; [done|].
    split; [done|]. split; [done|]. split; [done|]. by intros _ _.
Qed.


(** C4. Conflict, then success: when the manifest records no version,
    every file of the batch fails with a conflict at version 0 and every
    file goes through at version 1, the upload phase succeeds after the
    two passes, the final upload path is the one of version 1 (with the
    suffix [_v1]), and the manifest on disk records version 1. *)
Theorem conflict_then_success_persists_v1
    sprint_folder task_id manifest d on_disk_manifest :
  let files := get_file_list_for_upload d in
  let path0 := get_upload_path_from_version sprint_folder task_id 0 in
  let path1 := get_upload_path_from_version sprint_folder task_id 1 in
  starting_version manifest = Some 0 →
  manifest_json d = Some (JObj on_disk_manifest) →
  (∀ f, f ∈ files → task_result path0 f = (false, Some "409")) →
  (∀ f, f ∈ files → (task_result path1 f).1 = true) →
  ∃ st,
    upload_phase sprint_folder task_id manifest d = Some (Submitted st) ∧
    upload_successful st = true ∧
    final_upload_path st = Some path1 ∧
    path1 = sprint_folder +:+ "/" +:+ task_id +:+ "_v1" ∧
    final_version st = Some 1 ∧
    map ar_version (history st) = [0; 1] ∧
    manifest_json (on_disk st)
    = Some (JObj (<["last_submission_version" := JNum 1]> on_disk_manifest)).
Proof.
  intros files path0 path1 Hv0 Hdisk Hconflict Hok.
  assert (Hne : "manifest.json" ∈ files) by (by left).
  unfold upload_phase. rewrite Hv0. cbn [mbind option_bind].
  set (st0 := {| attempt_version := 0 |}).
  (* the pass at version 0 *)
  destruct (upload_experiment_data_spec path0 path0 files manifest)
    as (s0 & c0 & n0 & Hup0 & Hs0 & Hc0 & Hn0).
  assert (s0 = false) as ->.
  { destruct s0; [|done]. pose proof (proj1 Hs0 eq_refl _ Hne) as Ht.
    by rewrite (Hconflict _ Hne) in Ht. }
  assert (c0 = true) as ->.
  { apply Hc0. exists "manifest.json", "409".
    split; [done|]. split; [|by apply Hconflict].
    by right; left. }
  assert (n0 = 0%nat) as ->.
  { rewrite Hn0. rewrite filter_nil_all; [done|].
    intros f Hf. by rewrite (Hconflict f Hf). }
  destruct (attempt_body_spec sprint_folder task_id manifest 0%nat st0
              _ _ _ Hup0)
    as (ctl0 & st1 & Hb0 & Hd1 & Hh1 & Hfv1 & _ & Hnext & _).
  destruct Hnext as (-> & Hv1 & Hf1 & Hu1 & Hp1); [done|done|cbn; lia|].
  change (on_disk st1 = d) in Hd1.
  change (upload_files st1 = files) in Hf1.
  change (attempt_version st1 = 1) in Hv1.
  change (final_version st1 = None) in Hfv1.
  (* the pass at version 1 *)
  destruct (upload_experiment_data_spec path1 path1 files manifest)
    as (s1 & c1 & n1 & Hup1 & Hs1 & _ & Hn1).
  assert (s1 = true) as -> by (by apply Hs1).
  assert (Hpos : (0 <? n1)%nat = true).
  { apply Nat.ltb_lt. rewrite Hn1.
    match goal with
    | |- (0 < length ?l)%nat =>
        assert (Hin : "manifest.json" ∈ l)
          by (apply list_elem_of_filter; split; [by apply Hok|done]);
        apply list_elem_of_lookup in Hin as [i Hi];
        apply lookup_lt_Some in Hi; lia
    end. }
  pose proof (attempt_body_spec sprint_folder task_id manifest 1%nat st1)
    as Hspec. cbn zeta in Hspec. rewrite Hv1, Hf1 in Hspec.
  destruct (Hspec _ _ _ Hup1)
    as (ctl1 & st2 & Hb1 & Hd2 & Hh2 & Hfv2 & Hbreak & _).
  destruct Hbreak as (-> & Hu2 & Hp2); [done|].
  rewrite Hpos, Hd1 in Hd2. rewrite Hpos in Hh2, Hfv2.
  exists st2.
  change (seq 0 max_attempts) with [0; 1; 2; 3; 4]%nat.
  cbn [attempts]. rewrite Hb0. cbn [attempts]. rewrite Hb1, Hu2.
  split; [done|]. split; [done|]. split; [done|]. split; [done|].
  split; [done|]. split.
  - rewrite Hh2, Hh1, map_app. done.
  - rewrite Hd2. unfold update_manifest_version. by rewrite Hdisk.
Qed.

Lemma update_manifest_version_readable d v :
  readable d → readable (update_manifest_version d v).2.
Proof.
  intros [m Hm]. unfold update_manifest_version. rewrite Hm. by eexists.
Qed.

Lemma update_manifest_version_records d v :
  readable d →
  ∃ m, manifest_json (update_manifest_version d v).2 = Some (JObj m) ∧
       m !! "last_submission_version" = Some (JNum v).
Proof.
  intros [m Hm]. unfold update_manifest_version. rewrite Hm.
  eexists. split; [done|]. apply lookup_insert_eq.
Qed.

Lemma attempt_body_persists sprint_folder task_id manifest attempt st :
  readable (on_disk st) → Forall persists (history st) →
  let st' := (attempt_body sprint_folder task_id manifest attempt st).2 in
  readable (on_disk st') ∧ Forall persists (history st').
Proof.
  intros Hread Hhist.
  destruct (upload_experiment_data_spec
              (get_upload_path_from_version sprint_folder task_id
                 (attempt_version st))
              (get_upload_path_from_version sprint_folder task_id
                 (attempt_version st))
              (upload_files st) manifest)
    as (success & conflict & n & Hup & _).
  destruct (attempt_body_spec sprint_folder task_id manifest attempt st
              _ _ _ Hup) as (c & st' & Hbody & Hd & Hh & _).
  rewrite Hbody. cbn [snd]. rewrite Hd, Hh. split.
  - destruct (0 <? n)%nat; [by apply update_manifest_version_readable|done].
  - apply Forall_app. split; [done|]. constructor; [|constructor].
    unfold persists, version_persisted.
    cbn [ar_uploaded_count ar_manifest ar_version]. intros Hpos.
    apply Nat.ltb_lt in Hpos. rewrite Hpos.
    by apply update_manifest_version_records.
Qed.

Lemma attempts_persist sprint_folder task_id manifest range : ∀ st,
  readable (on_disk st) → Forall persists (history st) →
  Forall persists
    (history (attempts sprint_folder task_id manifest range st).2).
Proof.
  induction range as [|attempt range IH]; intros st Hread Hhist; [done|].
  cbn [attempts].
  destruct (attempt_body_persists sprint_folder task_id manifest attempt st
              Hread Hhist) as [Hread' Hhist'].
  destruct (attempt_body sprint_folder task_id manifest attempt st)
    as [[| |message] st'] eqn:Hbody; cbn [snd] in *; [by apply IH|done..].
Qed.

(** C5. Partial success is recorded: in a pass of the loop that uploads
    at least one file, the version of the pass is written to the
    [last_submission_version] field of the manifest on disk, whether
    the pass succeeds, is retried or ends the run with a failure; this
    holds for every pass of every run of the upload phase. *)
Theorem partial_success_persists_version
    sprint_folder task_id manifest d :
  readable d →
  (∀ attempt st, on_disk st = d →
     (0 < (upload_experiment_data
             (get_upload_path_from_version sprint_folder task_id
                (attempt_version st))
             (get_upload_path_from_version sprint_folder task_id
                (attempt_version st))
             (upload_files st) manifest).2)%nat →
     ∃ m, manifest_json
            (on_disk (attempt_body sprint_folder task_id manifest
                        attempt st).2)
          = Some (JObj m) ∧
          m !! "last_submission_version" = Some (JNum (attempt_version st)))
  ∧
  (∀ res, upload_phase sprint_folder task_id manifest d = Some res →
     ∀ r, r ∈ history (final_state res) →
          (0 < ar_uploaded_count r)%nat → version_persisted r).
Proof.
  intros Hread. split.
  - intros attempt st Hst Hpos.
    destruct (upload_experiment_data _ _ _ _) as [[success conflict] n]
      eqn:Hup.
    destruct (attempt_body_spec sprint_folder task_id manifest attempt st
                _ _ _ Hup) as (c & st' & Hbody & Hd & _).
    rewrite Hbody. cbn [snd] in *. rewrite Hd.
    apply Nat.ltb_lt in Hpos. rewrite Hpos, Hst.
    by apply update_manifest_version_records.
  - intros res Hres r Hr Hpos.
    unfold upload_phase in Hres.
    destruct (starting_version manifest) as [v0|]; [|done].
    cbn [mbind option_bind] in Hres.
    match type of Hres with
    | context [attempts _ _ _ ?range ?st0] =>
        pose proof (attempts_persist sprint_folder task_id manifest range
                      st0 Hread (Forall_nil_2 _)) as Hall;
        destruct (attempts sprint_folder task_id manifest range st0)
          as [ctl st] eqn:Hrun
    end.
    cbn [snd] in Hall.
    assert (final_state res = st) as Hfs.
    { destruct ctl; [destruct (upload_successful st)..|];
        injection Hres as <-; done. }
    rewrite Hfs in Hr.
    rewrite Forall_forall in Hall. by apply (Hall r Hr).
Qed.
End with_storage.
End SchedulerFacts.

(** ** The scheduler on the sample submissions *)

Module SchedulerExamples.
Import Submit SubmitSamples.
Local Open Scope Z_scope.



(** The unversioned folder is taken and version 1 is free: the run
    succeeds at version 1 and the manifest records 1. *)
Lemma conflict_then_success_persists_v1_witness :
  ∃ st,
    @upload_phase occupied_storage "sprint1" "task42" sample_manifest
      sample_disk
    = Some (Submitted st) ∧
    final_upload_path st = Some "sprint1/task42_v1" ∧
    manifest_json (on_disk st)
    = Some (JObj (<["last_submission_version" := JNum 1]> sample_manifest)).
Proof.
  destruct (@SchedulerFacts.conflict_then_success_persists_v1
              occupied_storage "sprint1" "task42" sample_manifest
              sample_disk sample_manifest)
    as (st & Hrun & _ & Hpath & _ & _ & _ & Hdisk).
  - by vm_compute.
  - reflexivity.
  - intros f Hf. vm_compute in Hf.
    repeat (apply elem_of_cons in Hf as [->|Hf]; [by vm_compute|]).
    by apply elem_of_nil in Hf.
  - intros f Hf. vm_compute in Hf.
    repeat (apply elem_of_cons in Hf as [->|Hf]; [by vm_compute|]).
    by apply elem_of_nil in Hf.
  - exists st. split; [exact Hrun|]. split; [exact Hpath|exact Hdisk].
Defined.

(** Two of the five files go through before the pass fails with errors
    that are no conflicts: the run fails and the manifest records the
    version of the pass. *)
Lemma partial_success_persists_version_witness :
  ∃ message st r,
    @upload_phase flaky_storage "sprint1" "task42" sample_manifest sample_disk
    = Some (Failed message st) ∧
    history st = [r] ∧ ar_uploaded_count r = 2%nat ∧
    version_persisted r.
Proof.
  destruct (@SchedulerFacts.partial_success_persists_version flaky_storage
              "sprint1" "task42" sample_manifest sample_disk)
    as [_ Hrun].
  - by exists sample_manifest.
  - eexists _, _, _. split; [vm_compute; reflexivity|].
    split; [reflexivity|]. split; [reflexivity|].
    eapply Hrun; [vm_compute; reflexivity| |cbn; lia].
    cbn. by left.
Defined.
End SchedulerExamples.

(** ** Pre-upload validation *)

Module ValidateFacts.
Import Validate.

Lemma app_cons c p q : String c p +:+ q = String c (p +:+ q).
Proof. reflexivity. Qed.

Lemma prefix_app p q : String.prefix p (p +:+ q) = true.
Proof.
  induction p as [|c p IH]; [by destruct q|].
  rewrite app_cons. cbn. by destruct (ascii_dec c c).
Qed.

Lemma contains_here sub q : PyStr.contains sub (sub +:+ q) = true.
Proof.
  destruct (sub +:+ q) as [|c r] eqn:Heq.
  - destruct sub; [done|discriminate].
  - cbn [PyStr.contains]. rewrite <- Heq, prefix_app. done.
Qed.

Lemma app_empty_r s : s +:+ "" = s.
Proof. induction s as [|c s IH]; [done|]. by rewrite app_cons, IH. Qed.

Lemma contains_refl s : PyStr.contains s s = true.
Proof. rewrite <- (app_empty_r s) at 2. apply contains_here. Qed.

Lemma contains_app_r sub p s :
  PyStr.contains sub s = true → PyStr.contains sub (p +:+ s) = true.
Proof.
  intros Hs. induction p as [|c p IH]; [done|].
  rewrite app_cons. cbn [PyStr.contains]. rewrite IH. by rewrite orb_true_r.
Qed.

Lemma prefix_app_l sub s q :
  String.prefix sub s = true → String.prefix sub (s +:+ q) = true.
Proof.
  revert s. induction sub as [|c sub IH]; intros s; [by destruct (s +:+ q)|].
  destruct s as [|d s]; [done|].
  rewrite app_cons. cbn.
  destruct (ascii_dec c d); [apply IH|done].
Qed.

Lemma contains_app_l sub s q :
  PyStr.contains sub s = true → PyStr.contains sub (s +:+ q) = true.
Proof.
  induction s as [|c s IH].
  - cbn. destruct sub; [|done]. intros _. by destruct q.
  - rewrite app_cons. cbn [PyStr.contains].
    intros [Hp|Hc]%orb_true_iff.
    + rewrite <- app_cons, (prefix_app_l sub (String c s) q Hp). done.
    + rewrite (IH Hc). by rewrite orb_true_r.
Qed.

Lemma contains_join sub sep l x :
  x ∈ l → PyStr.contains sub x = true →
  PyStr.contains sub (PyStr.join sep l) = true.
Proof.
  intros Hin Hx. induction l as [|y l IH]; [by apply elem_of_nil in Hin|].
  apply elem_of_cons in Hin as [<-|Hin].
  - destruct l as [|z l]; [done|].
    cbn [PyStr.join]. by apply contains_app_l.
  - destruct l as [|z l]; [by apply elem_of_nil in Hin|].
    cbn [PyStr.join]. apply contains_app_r, contains_app_r. by apply IH.
Qed.

End ValidateFacts.

(** ** Validation of the sample working directories *)

Module ValidateExamples.
Import Validate ValidateSamples.


End ValidateExamples.

(** ** More on the Merge Orchestrator *)

Module MergeExtras.
Import Merge PySort.

Section with_runtime.
Context `{Runtime}.

(** X1. Fewer than two sessions: when the directory holds fewer than two
    processed session files (raw transcripts and other files do not count),
    [merge_sessions] writes nothing and returns [False]. *)
Theorem merge_needs_two_sessions dir :
  (length (filter (λ f, negb (PyStr.contains "_raw.jsonl" (name f)))
             (filter (λ f, is_session_name (name f)) dir)) < 2)%nat →
  merge_sessions dir = Some NothingToMerge.
Proof.
  intros Hlen. unfold merge_sessions, find_session_files.
  destruct (filter _ (filter _ dir)) as [|f [|g l]]; [| |cbn in Hlen; lia].
  - done.
  - done.
Qed.

Lemma original_ids_None sessions s :
  s ∈ sessions → session_start s = None → original_ids sessions = None.
Proof.
  intros Hin Hs. unfold original_ids. apply mapM_None.
  apply Exists_exists. exists s. split; [done|]. by rewrite Hs.
Qed.

(** X2. A session without a start record: when two or more files are
    merged and one of them has no [session_start] event, [merge_sessions]
    raises ([None.get]) and writes no merged log. *)
Theorem merge_raises_without_session_start dir files sessions s :
  find_session_files dir = Some files →
  (2 ≤ length files)%nat →
  mapM (λ pf, extract_session_data (read_session_events pf)) files
    = Some sessions →
  s ∈ sessions → session_start s = None →
  merge_sessions dir = None.
Proof.
  intros Hf Hlen Hs Hin Hstart.
  unfold merge_sessions. rewrite Hf. cbn [mbind option_bind].
  apply Nat.ltb_ge in Hlen. rewrite Hlen. rewrite Hs. cbn [mbind option_bind].
  destruct (head sessions); [|done]. cbn [mbind option_bind].
  destruct (last sessions); [|done]. cbn [mbind option_bind].
  by rewrite (original_ids_None sessions s).
Qed.

Lemma collect_messages_intro merged_session_id sessions s msg :
  s ∈ sessions → head (messages s) = Some msg →
  retag merged_session_id msg ∈ collect_messages merged_session_id sessions.
Proof.
  intros Hs Hmsg. unfold collect_messages.
  rewrite list_elem_of_In, in_concat.
  exists (map (retag merged_session_id) (messages s)). split.
  - apply in_map_iff. exists s. by rewrite <- list_elem_of_In.
  - apply in_map_iff. exists msg. split; [done|].
    destruct (messages s); [done|]. injection Hmsg as ->. by left.
Qed.


Lemma has_type_unique e a b :
  has_type e a = true → has_type e b = true → a = b.
Proof.
  unfold has_type. destruct (e !! "type") as [[| | |t| |]|]; try done.
  intros Ha%String.eqb_eq Hb%String.eqb_eq. congruence.
Qed.

Lemma classify_fields data e :
  session_start (classify data e)
  = (if has_type e "session_start" then Some e else session_start data) ∧
  session_end (classify data e)
  = (if has_type e "session_end" then Some e else session_end data) ∧
  session_summary (classify data e)
  = (if has_type e "session_summary" then Some e else session_summary data) ∧
  messages (classify data e)
  = messages data ++ (if is_message e then [e] else []).
Proof.
  unfold classify, is_message.
  destruct (has_type e "session_start") eqn:H1.
  { destruct (has_type e "session_end") eqn:H2;
      [by pose proof (has_type_unique _ _ _ H1 H2)|].
    destruct (has_type e "session_summary") eqn:H3;
      [by pose proof (has_type_unique _ _ _ H1 H3)|].
    destruct (has_type e "user") eqn:H4;
      [by pose proof (has_type_unique _ _ _ H1 H4)|].
    destruct (has_type e "assistant") eqn:H5;
      [by pose proof (has_type_unique _ _ _ H1 H5)|].
    destruct (has_type e "assistant_thinking") eqn:H6;
      [by pose proof (has_type_unique _ _ _ H1 H6)|].
    cbn. by rewrite app_nil_r. }
  destruct (has_type e "session_end") eqn:H2.
  { destruct (has_type e "session_summary") eqn:H3;
      [by pose proof (has_type_unique _ _ _ H2 H3)|].
    destruct (has_type e "user") eqn:H4;
      [by pose proof (has_type_unique _ _ _ H2 H4)|].
    destruct (has_type e "assistant") eqn:H5;
      [by pose proof (has_type_unique _ _ _ H2 H5)|].
    destruct (has_type e "assistant_thinking") eqn:H6;
      [by pose proof (has_type_unique _ _ _ H2 H6)|].
    cbn. by rewrite app_nil_r. }
  destruct (has_type e "session_summary") eqn:H3.
  { destruct (has_type e "user") eqn:H4;
      [by pose proof (has_type_unique _ _ _ H3 H4)|].
    destruct (has_type e "assistant") eqn:H5;
      [by pose proof (has_type_unique _ _ _ H3 H5)|].
    destruct (has_type e "assistant_thinking") eqn:H6;
      [by pose proof (has_type_unique _ _ _ H3 H6)|].
    cbn. by rewrite app_nil_r. }
  destruct (_ || _); cbn; by rewrite ?app_nil_r.
Qed.

Lemma extract_from_spec evs : ∀ data s,
  extract_from data evs = Some s →
  session_start s
  = from_option Some (session_start data)
      (last (filter (λ e, has_type e "session_start" = true) (objects evs))) ∧
  session_end s
  = from_option Some (session_end data)
      (last (filter (λ e, has_type e "session_end" = true) (objects evs))) ∧
  session_summary s
  = from_option Some (session_summary data)
      (last (filter (λ e, has_type e "session_summary" = true) (objects evs))) ∧
  messages s
  = messages data ++ filter (λ e, is_message e = true) (objects evs).
Proof.
  induction evs as [|ev evs IH]; intros data s Hs; cbn in Hs.
  - injection Hs as <-. cbn. by rewrite app_nil_r.
  - destruct ev as [| | | | |e]; try done.
    destruct (IH _ _ Hs) as (I1 & I2 & I3 & I4).
    destruct (classify_fields data e) as (C1 & C2 & C3 & C4).
    rewrite I1, I2, I3, I4, C1, C2, C3, C4.
    change (objects (JObj e :: evs)) with (e :: objects evs).
    rewrite !filter_cons.
    assert (Hlast : ∀ (x : event) l d,
              from_option Some d (last (x :: l))
              = from_option Some (Some x) (last l)).
    { intros x l d. destruct l as [|y l]; [done|].
      rewrite last_cons_cons. by destruct (last (y :: l)) eqn:Hl;
        [|apply last_None in Hl]. }
    repeat split.
    + destruct (has_type e "session_start"); [|by rewrite decide_False].
      rewrite decide_True by done. by rewrite Hlast.
    + destruct (has_type e "session_end"); [|by rewrite decide_False].
      rewrite decide_True by done. by rewrite Hlast.
    + destruct (has_type e "session_summary"); [|by rewrite decide_False].
      rewrite decide_True by done. by rewrite Hlast.
    + destruct (is_message e).
      * rewrite decide_True by done. by rewrite <- app_assoc.
      * rewrite decide_False by done. by rewrite app_nil_r.
Qed.

(** X4. Classification of a session: of the events of a file,
    [extract_session_data] keeps the last [session_start], the last
    [session_end] and the last [session_summary] event, and the events of
    type [user], [assistant] and [assistant_thinking], in the order of the
    file, as the messages. *)
Theorem extract_session_data_classifies evs s :
  extract_session_data evs = Some s →
  session_start s
  = last (filter (λ e, has_type e "session_start" = true) (objects evs)) ∧
  session_end s
  = last (filter (λ e, has_type e "session_end" = true) (objects evs)) ∧
  session_summary s
  = last (filter (λ e, has_type e "session_summary" = true) (objects evs)) ∧
  messages s = filter (λ e, is_message e = true) (objects evs).
Proof.
  intros Hs. apply extract_from_spec in Hs as (I1 & I2 & I3 & I4).
  assert (Hid : ∀ o : option event, from_option Some None o = o)
    by (by intros []).
  rewrite I1, I2, I3, I4. cbn [data0 session_start session_end
    session_summary messages app]. by rewrite !Hid.
Qed.

(** X5. Events that are no JSON objects: [extract_session_data] returns
    exactly when every parsed line of the file is a JSON object; a line
    that holds a number, a string, a list, a boolean or null makes it
    raise. *)
Theorem extract_session_data_needs_objects evs :
  is_Some (extract_session_data evs) ↔ Forall (λ v, ∃ e, v = JObj e) evs.
Proof.
  unfold extract_session_data. generalize data0.
  induction evs as [|ev evs IH]; intros data; cbn.
  - split; [constructor|by eexists].
  - destruct ev as [| | | | |e];
      try (split; [by intros [? ?]|
                   intros [[e He] _]%Forall_cons; discriminate He]).
    rewrite IH. split.
    + intros Hall. constructor; [by eexists|done].
    + by intros [_ Hall]%Forall_cons.
Qed.

Lemma merge_sessions_records dir out :
  merge_sessions dir = Some (Merged out) →
  ∃ files sessions first_session ids aggregated,
    find_session_files dir = Some files ∧
    mapM (λ pf, extract_session_data (read_session_events pf)) files
      = Some sessions ∧
    head sessions = Some first_session ∧
    original_ids sessions = Some ids ∧
    merged_start out
    = build_merged_start uuid4 (length files)
        (default ∅ (session_start first_session)) ids ∧
    merged_summary out
    = build_merged_summary uuid4 (length files)
        (default ∅ (session_start first_session)) ids aggregated.
Proof.
  unfold merge_sessions. intros Hm.
  destruct (find_session_files dir) as [files|] eqn:Hf; [|done].
  cbn [mbind option_bind] in Hm.
  destruct (length files <? 2)%nat; [done|].
  destruct (mapM _ files) as [sessions|] eqn:Hs; [|done].
  cbn [mbind option_bind] in Hm.
  destruct (head sessions) as [first_session|] eqn:Hhd; [|done].
  cbn [mbind option_bind] in Hm.
  destruct (last sessions) as [last_session|]; [|done].
  cbn [mbind option_bind] in Hm.
  destruct (original_ids sessions) as [ids|] eqn:Hids; [|done].
  cbn [mbind option_bind] in Hm.
  destruct (PySort.sort _ _ _) as [msgs|]; [|done].
  cbn [mbind option_bind] in Hm.
  destruct (Aggregator.aggregate_summaries _) as [aggregated|]; [|done].
  cbn [mbind option_bind] in Hm.
  injection Hm as <-.
  by exists files, sessions, first_session, ids, aggregated.
Qed.

Lemma not_ab_key k :
  bool_decide (k ∈ ab_keys) = false → k ∉ ab_keys.
Proof. by intros Hk%bool_decide_eq_false. Qed.

(** X6. The synthesized records: in every merged log the start, summary
    and end records have the types [session_start], [session_summary] and
    [session_end] and carry the merged session id, whatever metadata the
    first session supplies. *)
Theorem merged_records_carry_merged_id dir out :
  merge_sessions dir = Some (Merged out) →
  merged_start out !! "type" = Some (JStr "session_start") ∧
  merged_start out !! "session_id" = Some (JStr uuid4) ∧
  merged_summary out !! "type" = Some (JStr "session_summary") ∧
  merged_summary out !! "session_id" = Some (JStr uuid4) ∧
  merged_end out !! "type" = Some (JStr "session_end") ∧
  merged_end out !! "session_id" = Some (JStr uuid4) ∧
  merged_end out !! "reason" = Some (JStr "merged_sessions").
Proof.
  intros Hm.
  destruct (merge_sessions_records dir out Hm)
    as (files & sessions & first & ids & agg & _ & _ & _ & _ & -> & ->).
  apply MergeFacts.merge_sessions_inv in Hm
    as (? & ? & ? & ? & ? & ? & _ & _ & _ & _ & _ & _ & _ & _ & ->).
  unfold build_merged_start, build_merged_summary, build_merged_end.
  rewrite !MergeFacts.copy_ab_metadata_other by (by apply not_ab_key).
  repeat split; by vm_compute.
Qed.

Lemma Forall2_head {A B} (P : A → B → Prop) l k y :
  Forall2 P l k → head k = Some y → ∃ x, head l = Some x ∧ P x y.
Proof. destruct 1; [done|]. intros [= <-]. by eexists. Qed.

(** X7. Start of the merged log: the timestamp of the synthesized start
    record is the timestamp of the start record of the first session in
    merge order, that is of the file that sorts first by the timestamp of
    its start record, and the current time when that record has no
    timestamp. *)
Theorem merged_start_timestamp_of_first_session dir out :
  merge_sessions dir = Some (Merged out) →
  ∃ files first_file first_session e,
    find_session_files dir = Some files ∧
    head files = Some first_file ∧
    extract_session_data (read_session_events first_file)
      = Some first_session ∧
    session_start first_session = Some e ∧
    merged_start out !! "timestamp"
    = Some (default (JStr (utcnow 0)) (e !! "timestamp")).
Proof.
  intros Hm.
  destruct (merge_sessions_records dir out Hm)
    as (files & sessions & first & ids & agg & Hf & Hs & Hhd & Hids & -> & _).
  apply mapM_Some_1 in Hs.
  destruct (Forall2_head _ _ _ _ Hs Hhd) as (first_file & Hff & Hx).
  assert (Hin : first ∈ sessions).
  { destruct sessions; [done|]. injection Hhd as ->. by left. }
  destruct (session_start first) as [e|] eqn:He.
  2: { by rewrite (original_ids_None sessions first) in Hids. }
  exists files, first_file, first, e. repeat split; try done.
  unfold build_merged_start.
  rewrite MergeFacts.copy_ab_metadata_other by (by apply not_ab_key).
  cbn [list_to_map foldr uncurry fst snd default].
  rewrite lookup_insert_ne by done. by rewrite lookup_insert_eq.
Qed.

Lemma length_collect_messages merged_session_id sessions :
  length (collect_messages merged_session_id sessions)
  = length (concat (map messages sessions)).
Proof.
  unfold collect_messages. induction sessions as [|s sessions IH]; [done|].
  cbn [map concat]. by rewrite !length_app, length_map, IH.
Qed.

End with_runtime.
End MergeExtras.

(** ** More on the sample directories *)

Module MergeExtrasExamples.
Import Merge PySort Samples SampleRuntime.
#[local] Existing Instance sample_runtime.

Lemma merge_needs_two_sessions_witness :
  merge_sessions one_session = Some NothingToMerge.
Proof. apply MergeExtras.merge_needs_two_sessions. vm_compute. lia. Defined.

Lemma merge_raises_without_session_start_witness :
  merge_sessions headless_sessions = None.
Proof.
  apply (MergeExtras.merge_raises_without_session_start headless_sessions
           [session_d; session_a]
           [classified session_d; classified session_a]
           (classified session_d)).
  - vm_compute; reflexivity.
  - cbn; lia.
  - vm_compute; reflexivity.
  - by left.
  - vm_compute; reflexivity.
Defined.


Lemma extract_session_data_classifies_witness :
  length (messages (classified session_a)) = 2%nat.
Proof.
  destruct (MergeExtras.extract_session_data_classifies
              (read_session_events session_a) (classified session_a))
    as (_ & _ & _ & ->); [vm_compute; reflexivity|].
  vm_compute. reflexivity.
Defined.

Lemma merged_records_carry_merged_id_witness :
  ∃ out, merge_sessions two_sessions = Some (Merged out) ∧
         merged_start out !! "session_id" = Some (JStr uuid4).
Proof.
  assert (Hsome : match merge_sessions two_sessions with
                  | Some (Merged _) => true
                  | _ => false
                  end = true) by (vm_compute; reflexivity).
  revert Hsome.
  destruct (merge_sessions two_sessions) as [[|out]|] eqn:Hm; [done| |done].
  intros _. exists out. split; [reflexivity|].
  by destruct (MergeExtras.merged_records_carry_merged_id two_sessions out Hm)
    as (_ & Hid & _).
Defined.

Lemma merged_start_timestamp_of_first_session_witness :
  ∃ out, merge_sessions two_sessions = Some (Merged out) ∧
         merged_start out !! "timestamp" = Some (JStr "2024-03-01T10:00:00Z").
Proof.
  assert (Hsome : match merge_sessions two_sessions with
                  | Some (Merged _) => true
                  | _ => false
                  end = true) by (vm_compute; reflexivity).
  assert (Hfiles : find_session_files two_sessions
                   = Some [session_a; session_b]) by (vm_compute; reflexivity).
  assert (Ha : extract_session_data (read_session_events session_a)
               = Some (classified session_a)) by (vm_compute; reflexivity).
  revert Hsome.
  destruct (merge_sessions two_sessions) as [[|out]|] eqn:Hm; [done| |done].
  intros _. exists out. split; [reflexivity|].
  destruct (MergeExtras.merged_start_timestamp_of_first_session
              two_sessions out Hm)
    as (files & first_file & first_session & e & Hf & Hh & Hx & He & Hts).
  rewrite Hfiles in Hf. injection Hf as <-.
  cbn [head] in Hh. injection Hh as <-.
  rewrite Ha in Hx. injection Hx as <-.
  assert (Hstart : (e' ← session_start (classified session_a);
                    Some (default (JStr (utcnow 0)) (e' !! "timestamp")))
                   = Some (JStr "2024-03-01T10:00:00Z"))
    by (vm_compute; reflexivity).
  rewrite He in Hstart. by rewrite Hts.
Defined.

End MergeExtrasExamples.

(** ** More on the transfer and the scheduler *)

Module TransferExtras.
Import Submit.

Section with_storage.
Context `{Storage}.

Lemma classify_error_shape msg :
  ∃ c, c ∈ ["403"; "409"; "other"] ∧ classify_error msg = (false, Some c).
Proof.
  unfold classify_error.
  destruct (_ || _); [exists "403"; split; [by left|done]|].
  destruct (_ || _); [exists "409"; split; [by right; left|done]|].
  exists "other". split; [by right; right; left|done].
Qed.

Lemma retry_loop_shape local remote range :
  retry_loop local remote range = (true, None) ∨
  ∃ c, c ∈ ["403"; "409"; "other"] ∧
       retry_loop local remote range = (false, Some c).
Proof.
  assert (Hother : ∃ c, c ∈ ["403"; "409"; "other"] ∧
                        (false, Some "other") = (false, Some c))
    by (exists "other"; split; [by right; right; left|done]).
  induction range as [|k range IH]; cbn [retry_loop]; [by right|].
  destruct (tus_upload local remote k) as [| |msg]; [by left| |].
  - destruct (_ <? _)%nat; [done|by right].
  - destruct (existsb _ _).
    + destruct (_ <? _)%nat; [done|by right].
    + right. apply classify_error_shape.
Qed.

(** X9. The result of a transfer: [upload_file_to_supabase] returns
    [(True, None)], or [(False, code)] with a code among ["403"], ["409"]
    and ["other"]; it returns nothing else and raises nothing. *)
Theorem upload_result_shape local_file_path remote_file_path :
  upload_file_to_supabase local_file_path remote_file_path = (true, None) ∨
  ∃ c, c ∈ ["403"; "409"; "other"] ∧
       upload_file_to_supabase local_file_path remote_file_path
       = (false, Some c).
Proof.
  unfold upload_file_to_supabase.
  destruct (stat_local local_file_path) as [msg|].
  - right. apply classify_error_shape.
  - apply retry_loop_shape.
Qed.

Lemma retry_loop_transient local remote k range :
  transient (tus_upload local remote k) = true →
  retry_loop local remote (k :: range)
  = if (k <? max_upload_retries - 1)%nat
    then retry_loop local remote range
    else (false, Some "other").
Proof.
  cbn [retry_loop]. unfold transient.
  destruct (tus_upload local remote k) as [| |msg]; [done|done|].
  by intros ->.
Qed.

(** X10. Retries of a transfer: when [stat] succeeds, a try that ends in a
    network error (or in an error whose text names one) is repeated, at
    most twice; the transfer succeeds when one of the three tries does and
    the tries before it were transient failures, it fails with code
    ["other"] when all three tries are transient failures, and an error
    that is not transient ends it at once with the code of its text. *)
Theorem upload_retries_transient_errors local remote :
  stat_local local = None →
  (∀ k, (k < max_upload_retries)%nat →
     (∀ j, (j < k)%nat → transient (tus_upload local remote j) = true) →
     tus_upload local remote k = Uploaded →
     upload_file_to_supabase local remote = (true, None)) ∧
  ((∀ j, (j < max_upload_retries)%nat →
         transient (tus_upload local remote j) = true) →
   upload_file_to_supabase local remote = (false, Some "other")) ∧
  (∀ k msg, (k < max_upload_retries)%nat →
     (∀ j, (j < k)%nat → transient (tus_upload local remote j) = true) →
     tus_upload local remote k = OtherError msg →
     transient (OtherError msg) = false →
     upload_file_to_supabase local remote = classify_error msg).
Proof.
  intros Hstat. unfold upload_file_to_supabase. rewrite Hstat.
  change (seq 0 max_upload_retries) with [0; 1; 2]%nat.
  unfold max_upload_retries.
  split; [|split].
  - intros k Hk Hbefore Hup.
    destruct k as [|[|[|k]]]; [| | |lia].
    + cbn [retry_loop]. by rewrite Hup.
    + rewrite retry_loop_transient by (apply Hbefore; lia).
      cbn [retry_loop Nat.ltb Nat.leb Nat.sub]. by rewrite Hup.
    + rewrite retry_loop_transient by (apply Hbefore; lia).
      cbn [Nat.ltb Nat.leb Nat.sub].
      rewrite retry_loop_transient by (apply Hbefore; lia).
      cbn [retry_loop Nat.ltb Nat.leb Nat.sub]. by rewrite Hup.
  - intros Hall.
    rewrite retry_loop_transient by (apply Hall; lia).
    cbn [Nat.ltb Nat.leb Nat.sub].
    rewrite retry_loop_transient by (apply Hall; lia).
    cbn [Nat.ltb Nat.leb Nat.sub].
    rewrite retry_loop_transient by (apply Hall; lia). done.
  - intros k msg Hk Hbefore Herr Hnt. cbn [transient] in Hnt.
    destruct k as [|[|[|k]]]; [| | |lia].
    + cbn [retry_loop]. by rewrite Herr, Hnt.
    + rewrite retry_loop_transient by (apply Hbefore; lia).
      cbn [retry_loop Nat.ltb Nat.leb Nat.sub]. by rewrite Herr, Hnt.
    + rewrite retry_loop_transient by (apply Hbefore; lia).
      cbn [Nat.ltb Nat.leb Nat.sub].
      rewrite retry_loop_transient by (apply Hbefore; lia).
      cbn [retry_loop Nat.ltb Nat.leb Nat.sub]. by rewrite Herr, Hnt.
Qed.
End with_storage.
End TransferExtras.

Module SchedulerExtras.
Import Submit.
Local Open Scope Z_scope.

Lemma length_filter_all {A} (P : A → Prop) `{∀ x, Decision (P x)} (l : list A) :
  length (filter P l) = length l ↔ ∀ x, x ∈ l → P x.
Proof.
  induction l as [|x l IH]; [by split; [intros _ ? ?%elem_of_nil|]|].
  rewrite filter_cons. pose proof (length_filter P l) as Hle.
  destruct (decide (P x)) as [Hx|Hx]; cbn [length].
  - split.
    + intros Hl y [->|Hy]%elem_of_cons; [done|]. apply IH; [lia|done].
    + intros Hall. f_equal. apply IH. intros y Hy. apply Hall. by right.
  - split; [lia|]. intros Hall. destruct Hx. apply Hall. by left.
Qed.

(** X11. The counts of a batch: the number of uploaded files is at most
    the number of files; the batch succeeds exactly when every file is
    uploaded; and a batch with a 403 or 409 failure is no success. *)
Theorem upload_batch_counts `{Storage} task_id user_folder files manifest :
  ∃ success had_conflict_errors n,
    upload_experiment_data task_id user_folder files manifest
    = (success, had_conflict_errors, n) ∧
    (n ≤ length files)%nat ∧
    (success = true ↔ n = length files) ∧
    (had_conflict_errors = true → success = false).
Proof.
  destruct (SchedulerFacts.upload_experiment_data_spec task_id user_folder
              files manifest)
    as (success & conflict & n & Hup & Hs & Hc & ->).
  eexists success, conflict, _. split; [exact Hup|].
  split; [apply length_filter|].
  split.
  - rewrite Hs. symmetry. apply length_filter_all.
  - intros (f & c & Hf & _ & Hr)%Hc.
    destruct success; [|done].
    pose proof (proj1 Hs eq_refl f Hf) as Ht. by rewrite Hr in Ht.
Qed.

Lemma app_inj_l (s a b : string) : s +:+ a = s +:+ b → a = b.
Proof.
  induction s as [|c s IH]; [done|].
  change (String c s +:+ ?x) with (String c (s +:+ x)).
  intros [= Heq]. by apply IH.
Qed.

Lemma length_app_string (a b : string) :
  String.length (a +:+ b) = (String.length a + String.length b)%nat.
Proof.
  induction a as [|c a IH]; [done|].
  change (String c a +:+ b) with (String c (a +:+ b)). cbn. by rewrite IH.
Qed.

(** X12. One folder per version: two different versions never share an
    upload path; in particular the unversioned path of version 0 differs
    from every path with a suffix. *)
Theorem upload_path_injective sprint_folder task_id v v' :
  v ≠ v' →
  get_upload_path_from_version sprint_folder task_id v
  ≠ get_upload_path_from_version sprint_folder task_id v'.
Proof.
  intros Hne. unfold get_upload_path_from_version, PyStr.of_Z.
  assert (Hno : ∀ x : string, task_id ≠ task_id +:+ "_v" +:+ x).
  { intros x Heq. apply (f_equal String.length) in Heq.
    rewrite !length_app_string in Heq. cbn in Heq. lia. }
  destruct (Z.eqb_spec v 0) as [->|Hv]; destruct (Z.eqb_spec v' 0) as [->|Hv'];
    try done.
  - intros Heq%app_inj_l%app_inj_l. by destruct (Hno _ Heq).
  - intros Heq%app_inj_l%app_inj_l. symmetry in Heq. by destruct (Hno _ Heq).
  - intros Heq%app_inj_l%app_inj_l%app_inj_l%app_inj_l.
    by apply Hne, (inj pretty).
Qed.

(** X13. The ledger round trip: after [update_manifest_version] has
    written version [v], the first version of the next run, computed from
    the manifest on disk, is [v + 1]; the update fails, and leaves the disk
    as it is, exactly when [manifest.json] does not hold a JSON object. *)
Theorem persisted_version_is_next_start d v :
  (readable d →
   ∃ manifest',
     update_manifest_version d v
     = (true, write_manifest d (JObj manifest')) ∧
     starting_version manifest' = Some (v + 1)) ∧
  (¬ readable d → update_manifest_version d v = (false, d)).
Proof.
  unfold update_manifest_version, readable. split.
  - intros [m ->]. eexists. split; [done|].
    unfold starting_version, Py.get. by rewrite lookup_insert_eq.
  - intros Hno. destruct (manifest_json d) as [[| | | | |m]|]; try done.
    destruct Hno. by eexists.
Qed.
End SchedulerExtras.

(** ** More on the sample submissions *)

Module SubmitExtrasExamples.
Import Submit SubmitSamples.
Local Open Scope Z_scope.

Lemma upload_retries_transient_errors_witness :
  @upload_file_to_supabase recovering_storage "manifest.json"
    "sprint1/task42/manifest.json" = (true, None).
Proof.
  destruct (@TransferExtras.upload_retries_transient_errors recovering_storage
              "manifest.json" "sprint1/task42/manifest.json" eq_refl)
    as (Hretry & _).
  apply (Hretry 1%nat).
  - unfold max_upload_retries. lia.
  - intros j Hj. assert (j = 0%nat) as -> by lia. reflexivity.
  - reflexivity.
Defined.

Lemma upload_path_injective_witness :
  get_upload_path_from_version "sprint1" "task42" 0
  ≠ get_upload_path_from_version "sprint1" "task42" 1.
Proof. apply SchedulerExtras.upload_path_injective. lia. Defined.

Lemma persisted_version_is_next_start_witness :
  ∃ manifest',
    update_manifest_version sample_disk 3
    = (true, write_manifest sample_disk (JObj manifest')) ∧
    starting_version manifest' = Some 4.
Proof.
  destruct (SchedulerExtras.persisted_version_is_next_start sample_disk 3)
    as [Hok _].
  apply Hok. by exists sample_manifest.
Defined.
End SubmitExtrasExamples.

(** ** The runs of the upload phase *)

Module RunExtras.
Import Submit.
Local Open Scope Z_scope.

Section with_storage.
Context `{Storage}.

Lemma attempts_history sprint_folder task_id manifest k : ∀ a st,
  ∃ new,
    history (attempts sprint_folder task_id manifest (seq a k) st).2
    = history st ++ new ∧
    (length new ≤ k)%nat ∧ (0 < k → 0 < length new)%nat ∧
    consecutive a (attempt_version st) new.
Proof.
  induction k as [|k IH]; intros a st.
  { exists []. cbn. rewrite app_nil_r. repeat split; try done; lia. }
  cbn [seq attempts].
  destruct (SchedulerFacts.upload_experiment_data_spec
              (get_upload_path_from_version sprint_folder task_id
                 (attempt_version st))
              (get_upload_path_from_version sprint_folder task_id
                 (attempt_version st))
              (upload_files st) manifest)
    as (success & conflict & n & Hup & _).
  destruct (SchedulerFacts.attempt_body_spec sprint_folder task_id manifest
              a st _ _ _ Hup)
    as (c & st' & Hbody & _ & Hh & _ & Hbreak & Hnext & Hlast & Hother).
  rewrite Hbody.
  set (r0 := {| ar_attempt := a |}) in Hh.
  assert (Hone : consecutive a (attempt_version st) [r0]).
  { split; [done|]. split; [cbn; f_equal; lia|].
    intros i r Hi Hlt. cbn in Hlt. lia. }
  destruct c as [| |message].
  - (* the loop goes on *)
    assert (Hs : success = false ∧ conflict = true ∧ (a < max_attempts - 1)%nat).
    { destruct success; [by destruct Hbreak|].
      destruct conflict; [|by destruct Hother].
      destruct (decide (a < max_attempts - 1)%nat); [done|].
      by destruct Hlast. }
    destruct Hs as (-> & -> & Hlt).
    specialize (Hnext eq_refl eq_refl Hlt). destruct Hnext as (_ & Hv & _).
    destruct (IH (S a) st') as (new & Hnew & Hlen & Hpos & Ha & Hvs & Hfail).
    exists (r0 :: new). rewrite Hnew, Hh, <- app_assoc. cbn [app length].
    split; [done|]. split; [lia|]. split; [lia|].
    split; [|split].
    + cbn [map seq]. by rewrite Ha.
    + cbn [map seq length]. rewrite Hvs, Hv.
      assert (Hhd : ar_version r0 = attempt_version st + Z.of_nat 0)
        by (cbn; lia).
      rewrite Hhd. f_equal.
      rewrite <- seq_shift, map_map.
      apply map_ext. intros i. lia.
    + intros [|i] r Hi Hlen'.
      * injection Hi as <-. done.
      * apply (Hfail i r Hi). cbn [length] in Hlen'. lia.
  - exists [r0]. cbn [snd]. rewrite Hh. cbn [length].
    split; [done|]. split; [lia|]. split; [lia|done].
  - exists [r0]. cbn [snd]. rewrite Hh. cbn [length].
    split; [done|]. split; [lia|]. split; [lia|done].
Qed.

(** X14. The passes of a run: a run of the upload phase makes at least one
    and at most five passes; their versions are the first version and its
    successors, one by one; and every pass that is followed by another
    failed with a 403 or 409 error. *)
Theorem upload_phase_versions_consecutive
    sprint_folder task_id manifest d res :
  upload_phase sprint_folder task_id manifest d = Some res →
  ∃ v0,
    starting_version manifest = Some v0 ∧
    let passes := history (final_state res) in
    (1 ≤ length passes ≤ max_attempts)%nat ∧
    map ar_version passes
    = map (λ i, v0 + Z.of_nat i) (seq 0 (length passes)) ∧
    ∀ i r, passes !! i = Some r → (S i < length passes)%nat →
           ar_success r = false ∧ ar_had_conflict_errors r = true.
Proof.
  unfold upload_phase. intros Hres.
  destruct (starting_version manifest) as [v0|]; [|done].
  cbn [mbind option_bind] in Hres. exists v0. split; [done|].
  match type of Hres with
  | context [attempts _ _ _ _ ?st0] =>
      destruct (attempts_history sprint_folder task_id manifest max_attempts
                  0%nat st0) as (new & Hnew & Hlen & Hpos & _ & Hvs & Hfail);
      destruct (attempts sprint_folder task_id manifest (seq 0 max_attempts)
                  st0) as [ctl st] eqn:Hrun
  end.
  cbn [snd history app] in Hnew.
  assert (final_state res = st) as ->.
  { destruct ctl; [destruct (upload_successful st)..|];
      injection Hres as <-; done. }
  cbn zeta. rewrite Hnew. split; [|done].
  split; [apply Hpos; unfold max_attempts; lia|done].
Qed.

Lemma file_list_not_empty d : get_file_list_for_upload d ≠ [].
Proof. done. Qed.

Lemma attempts_break sprint_folder task_id manifest range : ∀ st,
  readable (on_disk st) → upload_files st ≠ [] →
  ∃ c st',
    attempts sprint_folder task_id manifest range st = (c, st') ∧
    (c = Break →
       ∃ v m,
         final_version st' = Some v ∧
         final_upload_path st'
         = Some (get_upload_path_from_version sprint_folder task_id v) ∧
         manifest_json (on_disk st') = Some (JObj m) ∧
         m !! "last_submission_version" = Some (JNum v)) ∧
    (c ≠ Break → upload_successful st' = upload_successful st).
Proof.
  induction range as [|a range IH]; intros st Hread Hfiles.
  { exists Next, st. by repeat split. }
  cbn [attempts].
  destruct (SchedulerFacts.upload_experiment_data_spec
              (get_upload_path_from_version sprint_folder task_id
                 (attempt_version st))
              (get_upload_path_from_version sprint_folder task_id
                 (attempt_version st))
              (upload_files st) manifest)
    as (success & conflict & n & Hup & Hsucc & _ & Hn).
  destruct (SchedulerFacts.attempt_body_spec sprint_folder task_id manifest
              a st _ _ _ Hup)
    as (c & st1 & Hbody & Hd & _ & Hfv & Hbreak & Hnext & Hlast & Hother).
  rewrite Hbody.
  destruct c as [| |message].
  - (* another pass *)
    assert (Hs : success = false ∧ conflict = true ∧ (a < max_attempts - 1)%nat).
    { destruct success; [by destruct Hbreak|].
      destruct conflict; [|by destruct Hother].
      destruct (decide (a < max_attempts - 1)%nat); [done|].
      by destruct Hlast. }
    destruct Hs as (-> & -> & Hlt).
    destruct (Hnext eq_refl eq_refl Hlt) as (_ & _ & Hfl & Hus & _).
    destruct (IH st1) as (c & st' & Hrun & Hb & Hnb).
    + rewrite Hd. destruct (0 <? n)%nat; [|done].
      by apply SchedulerFacts.update_manifest_version_readable.
    + rewrite Hfl. apply file_list_not_empty.
    + exists c, st'. split; [done|]. split; [done|].
      intros Hc. by rewrite (Hnb Hc).
  - (* the batch went through *)
    exists Break, st1. split; [done|]. split; [|done]. intros _.
    assert (success = true) as ->.
    { destruct success; [done|]. destruct conflict.
      - destruct (decide (a < max_attempts - 1)%nat) as [Hlt|Hge].
        + by destruct (Hnext eq_refl eq_refl Hlt).
        + by destruct (Hlast eq_refl eq_refl Hge).
      - by destruct (Hother eq_refl eq_refl). }
    destruct (Hbreak eq_refl) as (_ & _ & Hpath).
    assert (Hpos : (0 <? n)%nat = true).
    { apply Nat.ltb_lt. rewrite Hn.
      rewrite (proj2 (SchedulerExtras.length_filter_all _ _)
                 (proj1 Hsucc eq_refl)).
      destruct (upload_files st); [done|cbn; lia]. }
    rewrite Hpos in Hd, Hfv.
    destruct (SchedulerFacts.update_manifest_version_records
                (on_disk st) (attempt_version st) Hread) as (m & Hm & Hkey).
    exists (attempt_version st), m. by rewrite Hfv, Hpath, Hd.
  - exists (Exit message), st1. split; [done|]. split; [done|]. intros _.
    destruct success; [by destruct Hbreak|].
    destruct conflict.
    + destruct (decide (a < max_attempts - 1)%nat) as [Hlt|Hge].
      * by destruct (Hnext eq_refl eq_refl Hlt).
      * by destruct (Hlast eq_refl eq_refl Hge).
    + by destruct (Hother eq_refl eq_refl).
Qed.

(** X15. A successful run: when the upload phase succeeds and
    [manifest.json] held a JSON object, the run ends with a final version
    [v], its final upload path is the path of [v], and the manifest on disk
    records [v] as the last submission version. *)
Theorem submitted_run_persists_final_version
    sprint_folder task_id manifest d st :
  readable d →
  upload_phase sprint_folder task_id manifest d = Some (Submitted st) →
  ∃ v m,
    final_version st = Some v ∧
    final_upload_path st
    = Some (get_upload_path_from_version sprint_folder task_id v) ∧
    manifest_json (on_disk st) = Some (JObj m) ∧
    m !! "last_submission_version" = Some (JNum v).
Proof.
  intros Hread Hres. unfold upload_phase in Hres.
  destruct (starting_version manifest) as [v0|]; [|done].
  cbn [mbind option_bind] in Hres.
  match type of Hres with
  | context [attempts _ _ _ ?range ?st0] =>
      destruct (attempts_break sprint_folder task_id manifest range st0)
        as (c & st' & Hrun & Hb & Hnb);
        [done|apply file_list_not_empty|]
  end.
  rewrite Hrun in Hres.
  destruct c as [| |message]; [| |done].
  - rewrite Hnb in Hres by done. done.
  - destruct (upload_successful st'); [|done].
    injection Hres as <-. by apply Hb.
Qed.
End with_storage.
End RunExtras.

Module RunExtrasExamples.
Import Submit SubmitSamples.
Local Open Scope Z_scope.

Lemma upload_phase_versions_consecutive_witness :
  ∃ res,
    @upload_phase occupied_storage "sprint1" "task42" sample_manifest
      sample_disk = Some res ∧
    map ar_version (history (final_state res)) = [0; 1].
Proof.
  assert (Hlen : match @upload_phase occupied_storage "sprint1" "task42"
                         sample_manifest sample_disk with
                 | Some res => length (history (final_state res))
                 | None => 0%nat
                 end = 2%nat) by (vm_compute; reflexivity).
  revert Hlen.
  destruct (@upload_phase occupied_storage "sprint1" "task42" sample_manifest
              sample_disk) as [res|] eqn:Hrun; [|done].
  intros Hlen. exists res. split; [reflexivity|].
  destruct (@RunExtras.upload_phase_versions_consecutive occupied_storage
              "sprint1" "task42" sample_manifest sample_disk res Hrun)
    as (v0 & Hv0 & _ & Hvs & _).
  rewrite Hvs, Hlen. vm_compute in Hv0. injection Hv0 as <-. reflexivity.
Defined.

Lemma submitted_run_persists_final_version_witness :
  ∃ st v,
    @upload_phase occupied_storage "sprint1" "task42" sample_manifest
      sample_disk = Some (Submitted st) ∧
    final_version st = Some v ∧
    final_upload_path st
    = Some (get_upload_path_from_version "sprint1" "task42" v).
Proof.
  assert (Hok : match @upload_phase occupied_storage "sprint1" "task42"
                        sample_manifest sample_disk with
                | Some (Submitted _) => true
                | _ => false
                end = true) by (vm_compute; reflexivity).
  revert Hok.
  destruct (@upload_phase occupied_storage "sprint1" "task42" sample_manifest
              sample_disk) as [[st|message st]|] eqn:Hrun; [|done..].
  intros _.
  destruct (@RunExtras.submitted_run_persists_final_version occupied_storage
              "sprint1" "task42" sample_manifest sample_disk st)
    as (v & m & Hv & Hpath & _); [by exists sample_manifest|exact Hrun|].
  exists st, v. split; [reflexivity|]. split; [exact Hv|exact Hpath].
Defined.
End RunExtrasExamples.
